(** * final_comprehensive_app.py: forecast-and-recommend pipeline

    A shallow embedding of the Streamlit script [final_comprehensive_app.py]:
    the price loader [fetch_stock_data], the trend forecaster
    [predict_price_movement], the option screener [analyze_single_stock], the
    batch orchestrator [find_top_recommendations] and the page script itself.

    Conventions of the embedding.
    - Prices are exact rationals ([Q]); a Python float that is finite is read
      as the rational it denotes and arithmetic is exact. A cell of a table
      may also hold a float that is not finite (NaN, an infinity). Where the
      regression library fails because its floating-point arithmetic
      overflows, and by how much the coefficients it returns are off the
      exact ones, is not for this model to say: it is asked of an oracle.
    - A pandas DataFrame is a mutable object: it lives in a heap indexed by
      object identity, and a Python variable holding one holds its identity.
    - The external collaborators (yfinance, the clock) are an oracle record
      [Provider]; what they are asked is recorded in the event trace.
    - Streamlit output calls are recorded in the same trace, with the
      interpolated values kept as data instead of formatted text; so are the
      calls to the loader and to the screener, with their arguments.
    - The columns of a downloaded DataFrame are flat (one "Close" column of
      numbers). *)

From Stdlib Require Import QArith Qabs Lqa ZArith List String Ascii Lia.
From Stdlib Require Import Sorting.Sorted Sorting.Permutation.
From stdpp Require Import gmap strings sorting.

Local Open Scope string_scope.
Local Open Scope list_scope.

(** ** Python values *)

(** The outcome of evaluating a Python expression: a value or a raised
    exception (its message). *)
Inductive PyResult (A : Type) : Type :=
| Ok (a : A)
| Raise (e : string).
Arguments Ok {A} a.
Arguments Raise {A} e.

(** The two date types the script passes around: [pd.to_datetime(..)] gives a
    pandas Timestamp, [date.today()] and [st.date_input] give a
    [datetime.date]. Both carry (year, month, day). *)
Inductive DateArg : Type :=
| PdTimestamp (ymd : nat * nat * nat)
| PyDate (ymd : nat * nat * nat).

#[global] Instance DateArg_eq_dec : EqDecision DateArg.
Proof. solve_decision. Defined.

#[global] Instance DateArg_countable : Countable DateArg.
Proof.
  refine (inj_countable'
    (fun d => match d with PdTimestamp x => inl x | PyDate x => inr x end)
    (fun s => match s with inl x => PdTimestamp x | inr x => PyDate x end) _).
  intros []; reflexivity.
Defined.

(** Comparisons on prices, as booleans. *)
Definition Qleb (x y : Q) : bool := Qle_bool x y.
Definition Qltb (x y : Q) : bool := negb (Qle_bool y x).

(** A float64 cell of a table: a finite number, or one of NaN, +inf, -inf. *)
Inductive PyFloat : Type :=
| Finite (q : Q)
| NotFinite.

(** The numbers of an array, when all of them are finite. *)
Fixpoint finite_values (l : list PyFloat) : option (list Q) :=
  match l with
  | [] => Some []
  | Finite q :: rest => option_map (cons q) (finite_values rest)
  | NotFinite :: _ => None
  end.

(** [s.replace(old, new)] for one-character [old] and [new]: every
    occurrence is replaced. *)
Fixpoint str_replace (old new : ascii) (s : string) : string :=
  match s with
  | EmptyString => EmptyString
  | String c rest =>
      String (if Ascii.eqb c old then new else c) (str_replace old new rest)
  end.

(** [np.arange(lo, hi)] on integers: lo, lo+1, ..., hi-1 (empty when
    hi <= lo). *)
Definition np_arange (lo hi : Z) : list Z :=
  map (fun k => (lo + Z.of_nat k)%Z) (seq 0 (Z.to_nat (hi - lo))).

(** ** Data model *)

(** A DataFrame: the row index (one date per bar) and the named columns. *)
Record DataFrame : Type := mkDataFrame {
  df_index : list (nat * nat * nat);
  df_columns : gmap string (list PyFloat)
}.

(** [len(data)] *)
Definition df_len (d : DataFrame) : nat := length (df_index d).

(** [data.empty]: some axis has length zero. *)
Definition df_empty (d : DataFrame) : bool :=
  (df_len d =? 0)%nat || (size (df_columns d) =? 0)%nat.

(** One row of an option chain table. *)
Record OptionContract : Type := mkOptionContract {
  contractSymbol : string;
  strike : Q;
  bid : Q;
  ask : Q
}.

(** [stock.option_chain(expiry)] *)
Record OptionChain : Type := mkOptionChain {
  calls : list OptionContract;
  puts : list OptionContract
}.

Inductive Category : Type := BUY_CALLS | BUY_PUTS | HOLD.

#[global] Instance Category_eq_dec : EqDecision Category.
Proof. solve_decision. Defined.

(** A row of [results] in the batch loop:
    (ticker, current_price, predicted_price, movement). *)
Record Entry : Type := mkEntry {
  e_ticker : string;
  e_current : Q;
  e_predicted : Q;
  e_movement : Q
}.

(** ** Streamlit output and the event trace *)

Inductive WarningMsg : Type :=
| NoDataFound (ticker : string)
| ErrorFetching (ticker : string) (e : string)
| ErrorPrediction (e : string)
| NoOptionsData (shortName : string)
| ErrorAnalyzingOptions (e : string)
| ErrorProcessingTicker (ticker : string) (e : string)
| NoValidRecommendations
| ErrorAnalyzingTicker (ticker : string) (e : string).

Inductive UiMsg : Type :=
| StHeader (s : string)
| StSubheader (s : string)
| StSubheaderOptions (shortName : string)
| StWarning (w : WarningMsg)
| StWrite (s : string)
| StWriteCurrent (current : Q)
| StWritePredicted (predicted : Q)
| StWriteRanked (ticker : string) (predicted current movement : Q)
| StDataframe (rows : list OptionContract)
| StSuccess (cat : Category) (predicted current : Q)
| StInfo (s : string)
| StInfoHold
| StError (s : string)
| StText (s : string).

Inductive Event : Type :=
| EvCallFetch (ticker : string) (start_date end_date : DateArg)
| EvDownload (symbol : string) (start_date end_date : DateArg)
| EvTicker (symbol : string)
| EvCallAnalyze (symbol : string) (current predicted : Q)
| EvUi (m : UiMsg).

(** ** The outside world *)

Record Provider : Type := mkProvider {
  (** [yf.download(symbol, start=.., end=..)] *)
  yf_download : string -> DateArg -> DateArg -> PyResult DataFrame;
  (** [date.today()] *)
  date_today : nat * nat * nat;
  (** [stock.info.get('shortName', 'Unknown Stock')] *)
  ticker_shortName : string -> PyResult string;
  (** [stock.options] *)
  ticker_options : string -> PyResult (list string);
  (** [stock.option_chain(expiry)] *)
  ticker_option_chain : string -> string -> PyResult OptionChain;
  (** the floating-point arithmetic of [LinearRegression().fit(X, y)] on
      finite data: the exception it ends with when a value overflows (while
      the data is centred or the system is solved), or else the rounding
      errors of the slope and of the intercept it returns *)
  fit_rounding : list Q -> list Q -> PyResult (Q * Q)
}.

(** ** Program state *)

Record State : Type := mkState {
  (** the DataFrame objects, by identity *)
  heap : gmap nat DataFrame;
  next_id : nat;
  (** the store behind [@st.cache_data]: per argument triple, a snapshot of
      the returned value and the output calls to replay *)
  fetch_cache : gmap (string * DateArg * DateArg) (option DataFrame * list UiMsg);
  (** [st.session_state.selected_stock]; a key the script has not set yet
      reads as [None], which is what the script initialises it to *)
  session_selected_stock : option string;
  (** [st.session_state.stock_data] *)
  session_stock_data : option nat
}.

Definition set_heap (h : gmap nat DataFrame) (n : nat) (s : State) : State :=
  mkState h n (fetch_cache s) (session_selected_stock s) (session_stock_data s).

Definition set_fetch_cache
    (c : gmap (string * DateArg * DateArg) (option DataFrame * list UiMsg))
    (s : State) : State :=
  mkState (heap s) (next_id s) c (session_selected_stock s) (session_stock_data s).

Definition set_session (sel : option string) (dat : option nat) (s : State) : State :=
  mkState (heap s) (next_id s) (fetch_cache s) sel dat.

(** ** A state, exception and trace monad *)

Definition M (A : Type) : Type := State -> PyResult A * State * list Event.

Definition ret {A} (a : A) : M A := fun s => (Ok a, s, []).

Definition bind {A B} (m : M A) (f : A -> M B) : M B :=
  fun s =>
    match m s with
    | (Ok a, s1, t1) => let '(r, s2, t2) := f a s1 in (r, s2, t1 ++ t2)
    | (Raise e, s1, t1) => (Raise e, s1, t1)
    end.

Notation "x <- m ;; k" := (bind m (fun x => k))
  (at level 100, m at next level, right associativity).
Notation "m ;;; k" := (bind m (fun _ => k))
  (at level 100, right associativity).

Definition raise {A} (e : string) : M A := fun s => (Raise e, s, []).

Definition lift {A} (r : PyResult A) : M A := fun s => (r, s, []).

Definition emit (ev : Event) : M unit := fun s => (Ok tt, s, [ev]).

Definition get : M State := fun s => (Ok s, s, []).

Definition modify (f : State -> State) : M unit := fun s => (Ok tt, f s, []).

(** [try: m  except Exception as e: h e] *)
Definition try_except {A} (m : M A) (h : string -> M A) : M A :=
  fun s =>
    match m s with
    | (Ok a, s1, t1) => (Ok a, s1, t1)
    | (Raise e, s1, t1) => let '(r, s2, t2) := h e s1 in (r, s2, t1 ++ t2)
    end.

(** Run [m] and also hand back what it emitted. *)
Definition listen {A} (m : M A) : M (A * list Event) :=
  fun s =>
    match m s with
    | (Ok a, s1, t1) => (Ok (a, t1), s1, t1)
    | (Raise e, s1, t1) => (Raise e, s1, t1)
    end.

Definition ui (m : UiMsg) : M unit := emit (EvUi m).
Definition st_warning (w : WarningMsg) : M unit := ui (StWarning w).

(** Projections of a run. *)
Definition result_of {A} (r : PyResult A * State * list Event) : PyResult A := r.1.1.
Definition state_of {A} (r : PyResult A * State * list Event) : State := r.1.2.
Definition trace_of {A} (r : PyResult A * State * list Event) : list Event := r.2.

(** ** Heap operations *)

(** Create a new DataFrame object. *)
Definition alloc (d : DataFrame) : M nat :=
  fun s => (Ok (next_id s), set_heap (<[next_id s := d]> (heap s)) (S (next_id s)) s, []).

(** Read the object behind a reference. A reference held by the program
    always points to an object; the [Raise] branch is there for totality. *)
Definition deref (l : nat) : M DataFrame :=
  fun s =>
    match heap s !! l with
    | Some d => (Ok d, s, [])
    | None => (Raise "invalid reference", s, [])
    end.

(** [data[name] = values]: adds the column, or replaces it, in place. pandas
    raises when the length of [values] differs from the number of rows. *)
Definition set_column (l : nat) (name : string) (values : list PyFloat) : M unit :=
  d <- deref l ;;
  if (length values =? df_len d)%nat
  then modify (fun s =>
         set_heap (<[l := mkDataFrame (df_index d) (<[name := values]> (df_columns d))]> (heap s))
                  (next_id s) s)
  else raise "Length of values does not match length of index".

(** [data[name].values]; KeyError when there is no such column. *)
Definition get_column (l : nat) (name : string) : M (list PyFloat) :=
  d <- deref l ;;
  match df_columns d !! name with
  | Some v => ret v
  | None => raise "KeyError"
  end.

(** ** scikit-learn's LinearRegression

    Ordinary least squares with an intercept and one feature, as documented
    for [sklearn.linear_model.LinearRegression]: the data is centred, the
    slope is the least-squares solution on the centred data and the
    intercept is [mean y - slope * mean X]. When all feature values
    coincide the centred system is zero and the slope is 0 (the
    minimum-norm solution); division by zero in [Q] gives 0 as well.
    [fit] validates its input first and raises on a value that is not
    finite. Its arithmetic is floating-point: it raises when a value
    overflows, and the coefficients it returns are the exact ones up to a
    rounding error; both are asked of the oracle [rounding]. *)

Record LinearModel : Type := mkLinearModel {
  coef_ : Q;
  intercept_ : Q
}.

Definition Qsum (l : list Q) : Q := fold_right Qplus 0%Q l.

Definition Qmean (l : list Q) : Q := (Qsum l / inject_Z (Z.of_nat (length l)))%Q.

Definition ols_fit (X y : list Q) : LinearModel :=
  let mx := Qmean X in
  let my := Qmean y in
  let sxy := Qsum (zip_with (fun xi yi => (xi - mx) * (yi - my))%Q X y) in
  let sxx := Qsum (map (fun xi => (xi - mx) * (xi - mx))%Q X) in
  let slope := (sxy / sxx)%Q in
  mkLinearModel slope (my - slope * mx)%Q.

(** The model with the given errors added to its slope and intercept. *)
Definition rounded (m : LinearModel) (err : Q * Q) : LinearModel :=
  mkLinearModel (coef_ m + err.1)%Q (intercept_ m + err.2)%Q.

(** [model.fit(X, y)]: input validation, then the fit. *)
Definition LinearRegression_fit (rounding : list Q -> list Q -> PyResult (Q * Q))
    (X y : list PyFloat) : PyResult LinearModel :=
  if (length X =? 0)%nat then Raise "Found array with 0 sample(s)"
  else
    match finite_values X, finite_values y with
    | Some xs, Some ys =>
        if negb (length xs =? length ys)%nat
        then Raise "Found input variables with inconsistent numbers of samples"
        else match rounding xs ys with
             | Ok err => Ok (rounded (ols_fit xs ys) err)
             | Raise e => Raise e
             end
    | _, _ => Raise "Input contains NaN or infinity"
    end.

(** [model.predict(X)] *)
Definition LinearRegression_predict (m : LinearModel) (X : list Q) : PyResult (list Q) :=
  match X with
  | [] => Raise "Found array with 0 sample(s)"
  | _ :: _ => Ok (map (fun x => x * coef_ m + intercept_ m)%Q X)
  end.

(** ** The program *)

Definition top_50_stocks : list string := [
    "AAPL"; "MSFT"; "GOOGL"; "AMZN"; "TSLA"; "META"; "NVDA"; "BRK.B"; "V"; "JPM";
    "JNJ"; "WMT"; "PG"; "UNH"; "HD"; "MA"; "DIS"; "PYPL"; "BAC"; "NFLX";
    "ADBE"; "KO"; "PEP"; "NKE"; "T"; "PFE"; "MRK"; "INTC"; "XOM"; "CSCO";
    "ORCL"; "CMCSA"; "ABT"; "CRM"; "COST"; "VZ"; "ACN"; "AMD"; "UPS"; "QCOM";
    "TXN"; "AVGO"; "LIN"; "LOW"; "HON"; "AMGN"; "CVX"; "MDT"; "PM"; "NEE"
  ].

Section Program.

Variable env : Provider.

(** *** fetch_stock_data *)

(** The body of [fetch_stock_data], without the cache decorator. *)
Definition fetch_stock_data_body (ticker : string) (start_date end_date : DateArg)
    : M (option nat) :=
  try_except
    (let adjusted_ticker := str_replace "." "-" ticker in
     emit (EvDownload adjusted_ticker start_date end_date) ;;;
     d <- lift (yf_download env adjusted_ticker start_date end_date) ;;
     stock_data <- alloc d ;;
     if df_empty d
     then st_warning (NoDataFound ticker) ;;; ret None
     else ret (Some stock_data))
    (fun e => st_warning (ErrorFetching ticker e) ;;; ret None).

Definition ui_messages (t : list Event) : list UiMsg :=
  omap (fun ev => match ev with EvUi m => Some m | _ => None end) t.

Fixpoint replay (msgs : list UiMsg) : M unit :=
  match msgs with
  | [] => ret tt
  | m :: rest => ui m ;;; replay rest
  end.

(** A cached value is handed out as a copy: a new object each time. *)
Definition materialize (v : option DataFrame) : M (option nat) :=
  match v with
  | None => ret None
  | Some d => l <- alloc d ;; ret (Some l)
  end.

(** [@st.cache_data def fetch_stock_data(ticker, start_date, end_date)].
    On a hit the stored output calls are replayed and a copy of the stored
    value is returned; on a miss the body runs, and a snapshot of what it
    returned is stored together with its output calls. *)
Definition fetch_stock_data (ticker : string) (start_date end_date : DateArg)
    : M (option nat) :=
  emit (EvCallFetch ticker start_date end_date) ;;;
  s <- get ;;
  match fetch_cache s !! (ticker, start_date, end_date) with
  | Some (v, msgs) => replay msgs ;;; materialize v
  | None =>
      rt <- listen (fetch_stock_data_body ticker start_date end_date) ;;
      let '(r, t) := rt in
      s1 <- get ;;
      let snapshot := r ≫= (fun l => heap s1 !! l) in
      modify (fun s2 =>
        set_fetch_cache (<[(ticker, start_date, end_date) := (snapshot, ui_messages t)]>
                           (fetch_cache s2)) s2) ;;;
      ret r
  end.

(** *** predict_price_movement *)

(** [predictions[-1]], [series.iloc[-1]] *)
Definition py_last {A} (l : list A) : PyResult A :=
  match last l with
  | Some a => Ok a
  | None => Raise "IndexError"
  end.

(** The number in a cell that holds a finite one. At the one place it is
    used the fit has already checked every close, so the other branch is
    never taken there. *)
Definition float_value (c : PyFloat) : PyResult Q :=
  match c with
  | Finite q => Ok q
  | NotFinite => Raise "not a finite number"
  end.

(** [def predict_price_movement(data, days=7)] *)
Definition predict_price_movement (data : option nat) (days : Z)
    : M (option Q * option Q) :=
  match data with
  | None => ret (None, None)
  | Some l =>
      d <- deref l ;;
      if (df_len d <? 2)%nat then ret (None, None)
      else
        try_except
          (set_column l "Days"
             (map Finite (map inject_Z (np_arange 0 (Z.of_nat (df_len d))))) ;;;
           X <- get_column l "Days" ;;
           y <- get_column l "Close" ;;
           model <- lift (LinearRegression_fit (fit_rounding env) X y) ;;
           let future_days :=
             map inject_Z (np_arange (Z.of_nat (df_len d)) (Z.of_nat (df_len d) + days)) in
           predictions <- lift (LinearRegression_predict model future_days) ;;
           close <- get_column l "Close" ;;
           last_close <- lift (py_last close) ;;
           current <- lift (float_value last_close) ;;
           predicted <- lift (py_last predictions) ;;
           ret (Some current, Some predicted))
          (fun e => st_warning (ErrorPrediction e) ;;; ret (None, None))
  end.

(** *** analyze_single_stock *)

(** The mask [(t['strike'] >= current_price * 0.95) & (t['strike'] <= current_price * 1.05)] *)
Definition strike_in_range (current_price : Q) (c : OptionContract) : bool :=
  Qleb (current_price * 0.95) (strike c) && Qleb (strike c) (current_price * 1.05).

(** The branch taken by the if / elif / else at the end of
    [analyze_single_stock]. *)
Definition recommendation (current_price predicted_price : Q) : Category :=
  if Qltb (current_price * 1.05) predicted_price then BUY_CALLS
  else if Qltb predicted_price (current_price * 0.95) then BUY_PUTS
  else HOLD.

Definition st_recommend (current_price predicted_price : Q) : M unit :=
  match recommendation current_price predicted_price with
  | BUY_CALLS => ui (StSuccess BUY_CALLS predicted_price current_price)
  | BUY_PUTS => ui (StSuccess BUY_PUTS predicted_price current_price)
  | HOLD => ui StInfoHold
  end.

(** [def analyze_single_stock(stock, current_price, predicted_price)]; [stock]
    is the [yf.Ticker] object, identified by its symbol. *)
Definition analyze_single_stock (stock : string) (current_price predicted_price : Q)
    : M unit :=
  emit (EvCallAnalyze stock current_price predicted_price) ;;;
  name <- lift (ticker_shortName env stock) ;;
  ui (StSubheaderOptions name) ;;;
  try_except
    (options <- lift (ticker_options env stock) ;;
     match options with
     | [] =>
         name <- lift (ticker_shortName env stock) ;;
         st_warning (NoOptionsData name)
     | _ :: _ =>
         expiry_dates <- lift (ticker_options env stock) ;;
         expiry <- lift (match expiry_dates with
                         | e :: _ => Ok e
                         | [] => Raise "IndexError"
                         end) ;;
         options_chain <- lift (ticker_option_chain env stock expiry) ;;
         let relevant_calls := filter (fun c => strike_in_range current_price c = true)
                                 (calls options_chain) in
         let relevant_puts := filter (fun c => strike_in_range current_price c = true)
                                (puts options_chain) in
         ui (StWrite "Relevant Call Options") ;;;
         ui (StDataframe relevant_calls) ;;;
         ui (StWrite "Relevant Put Options") ;;;
         ui (StDataframe relevant_puts) ;;;
         st_recommend current_price predicted_price
     end)
    (fun e => st_warning (ErrorAnalyzingOptions e)).

(** *** find_top_recommendations *)

(** One iteration of the loop over the universe: returns [results] as the
    iteration leaves it. *)
Definition process_ticker (ticker : string) (results : list Entry) : M (list Entry) :=
  try_except
    (stock_data <- fetch_stock_data ticker (PdTimestamp (2022, 1, 1)%nat)
                      (PyDate (date_today env)) ;;
     match stock_data with
     | None => ret results
     | Some _ =>
         cp <- predict_price_movement stock_data 7 ;;
         match cp with
         | (Some current_price, Some predicted_price) =>
             let movement := Qabs (predicted_price - current_price) in
             ret (results ++ [mkEntry ticker current_price predicted_price movement])
         | _ => ret results
         end
     end)
    (fun e => st_warning (ErrorProcessingTicker ticker e) ;;; ret results).

Fixpoint collect_results (universe : list string) (results : list Entry)
    : M (list Entry) :=
  match universe with
  | [] => ret results
  | ticker :: rest =>
      results' <- process_ticker ticker results ;;
      collect_results rest results'
  end.

(** [isinstance(x, (int, float))]: the three numbers of a row are floats
    whenever the forecaster returned them. *)
Definition is_number (x : Q) : bool := true.

(** [len(entry) == 4 and all(isinstance(x, (int, float)) for x in entry[1:])] *)
Definition valid_entry (entry : Entry) : bool :=
  (4 =? 4)%nat
  && forallb is_number [e_current entry; e_predicted entry; e_movement entry].

(** [sorted(l, key=lambda x: x[3], reverse=True)]: descending in the key,
    and stable (rows with equal keys keep their order). *)
Fixpoint insert_desc (x : Entry) (l : list Entry) : list Entry :=
  match l with
  | [] => [x]
  | y :: l' =>
      if Qltb (e_movement x) (e_movement y) then y :: insert_desc x l'
      else x :: y :: l'
  end.

Definition sorted_desc (l : list Entry) : list Entry :=
  fold_right insert_desc [] l.

(** One iteration of the loop over [sorted_results]. *)
Definition show_entry (entry : Entry) : M unit :=
  try_except
    (ui (StWriteRanked (e_ticker entry) (e_predicted entry) (e_current entry)
           (e_movement entry)) ;;;
     let symbol := str_replace "." "-" (e_ticker entry) in
     emit (EvTicker symbol) ;;;
     analyze_single_stock symbol (e_current entry) (e_predicted entry))
    (fun e => st_warning (ErrorAnalyzingTicker (e_ticker entry) e)).

Fixpoint show_entries (l : list Entry) : M unit :=
  match l with
  | [] => ret tt
  | entry :: rest => show_entry entry ;;; show_entries rest
  end.

(** [def find_top_recommendations()], with the global list it iterates over
    as an argument. *)
Definition find_top_recommendations_over (universe : list string) : M unit :=
  ui (StSubheader "Top Recommendations Across Top 50 Stocks") ;;;
  results <- collect_results universe [] ;;
  let valid_results := filter (fun entry => valid_entry entry = true) results in
  match valid_results with
  | [] => st_warning NoValidRecommendations
  | _ :: _ =>
      let sorted_results := take 5 (sorted_desc valid_results) in
      show_entries sorted_results
  end.

Definition find_top_recommendations : M unit :=
  find_top_recommendations_over top_50_stocks.

(** *** The page script *)

(** What the widgets return in one run of the script. *)
Record UiInput : Type := mkUiInput {
  in_selected_stock : string;          (* st.selectbox *)
  in_start_date : nat * nat * nat;     (* st.date_input("Start Date") *)
  in_end_date : nat * nat * nat;       (* st.date_input("End Date") *)
  in_analyze_clicked : bool;           (* st.button("Analyze Stock") *)
  in_top_clicked : bool                (* st.button("Top Recommendations") *)
}.

Definition tab_stock_analysis (inp : UiInput) : M unit :=
  ui (StHeader "Stock Analysis") ;;;
  if in_analyze_clicked inp then
    if String.eqb (in_selected_stock inp) "Analyze All" then find_top_recommendations
    else
      modify (fun s => set_session (Some (in_selected_stock inp)) (session_stock_data s) s) ;;;
      stock_data <- fetch_stock_data (in_selected_stock inp)
                      (PyDate (in_start_date inp)) (PyDate (in_end_date inp)) ;;
      match stock_data with
      | Some _ =>
          modify (fun s => set_session (session_selected_stock s) stock_data s) ;;;
          cp <- predict_price_movement stock_data 7 ;;
          match cp with
          | (Some current_price, Some predicted_price) =>
              ui (StWriteCurrent current_price) ;;;
              ui (StWritePredicted predicted_price) ;;;
              emit (EvTicker (in_selected_stock inp)) ;;;
              analyze_single_stock (in_selected_stock inp) current_price predicted_price
          | _ => ui (StError "Unable to calculate predictions for the selected stock.")
          end
      | None => ret tt
      end
  else ret tt.

Definition tab_options_analysis : M unit :=
  ui (StHeader "Options Analysis") ;;;
  s <- get ;;
  match session_selected_stock s with
  | Some (String _ _ as selected) =>
      let stock := str_replace "." "-" selected in
      emit (EvTicker stock) ;;;
      cp <- predict_price_movement (session_stock_data s) 7 ;;
      match cp with
      | (Some current_price, Some predicted_price) =>
          analyze_single_stock stock current_price predicted_price
      | _ => ui (StError "Unable to calculate predictions for the selected stock.")
      end
  | _ => ui (StInfo "Select a stock in the Stock Analysis tab first.")
  end.

Definition tab_top_recommendations (inp : UiInput) : M unit :=
  if in_top_clicked inp then find_top_recommendations else ret tt.

(** The script body under its global [try] / [except]. *)
Definition main (inp : UiInput) : M unit :=
  try_except
    (tab_stock_analysis inp ;;;
     tab_options_analysis ;;;
     tab_top_recommendations inp)
    (fun e =>
       ui (StError "An unexpected error occurred. See details below:") ;;;
       ui (StText e)).

End Program.

(** ** A concrete world to run the program in *)

Module Demo.

(** A table with the given cells in its column "Close". *)
Definition table (closes : list PyFloat) : DataFrame :=
  mkDataFrame (map (fun k => (2024, 1, S k)%nat) (seq 0 (length closes)))
              {[ "Close" := closes ; "Volume" := map (fun _ => Finite 1000%Q) closes ]}.

(** A table whose closes are the given numbers. *)
Definition bars (closes : list Q) : DataFrame := table (map Finite closes).

(** The largest float64. *)
Definition float_max : Q := inject_Z (2 ^ 1024 - 2 ^ 971).

(** An oracle for the demo world: the fit overflows when the sum of the
    targets leaves the range of float64, and is exact otherwise. *)
Definition rounding (xs ys : list Q) : PyResult (Q * Q) :=
  if Qleb (Qabs (Qsum ys)) float_max then Ok (0, 0)%Q
  else Raise "array must not contain infs or NaNs".

Definition chain : OptionChain :=
  mkOptionChain
    [ mkOptionContract "C95" 95%Q 1%Q 2%Q; mkOptionContract "C98.8" 98.8%Q 1%Q 2%Q;
      mkOptionContract "C100" 100%Q 1%Q 2%Q; mkOptionContract "C109.2" 109.2%Q 1%Q 2%Q;
      mkOptionContract "C110" 110%Q 1%Q 2%Q ]
    [ mkOptionContract "P98" 98%Q 1%Q 2%Q; mkOptionContract "P104" 104%Q 1%Q 2%Q;
      mkOptionContract "P120" 120%Q 1%Q 2%Q ].

(** Closes near the top of the range of float64: 10^308 each. *)
Definition huge : list Q := [inject_Z (10 ^ 308); inject_Z (10 ^ 308); inject_Z (10 ^ 308)].

(** Closes with a gap: the second one is NaN. *)
Definition gapped : list PyFloat := [Finite 100%Q; NotFinite; Finite 102%Q].

(** AAPL rises by one a day, MSFT falls by three a day, BRK-B is flat, NVDA
    has a single bar, TSLA has no data, INTC has a gap, AMD has huge closes
    and every other symbol fails. *)
Definition provider : Provider :=
  mkProvider
    (fun symbol _ _ =>
       if String.eqb symbol "AAPL" then Ok (bars [100; 101; 102; 103; 104]%Q)
       else if String.eqb symbol "MSFT" then Ok (bars [100; 97; 94; 91]%Q)
       else if String.eqb symbol "BRK-B" then Ok (bars [50; 50; 50]%Q)
       else if String.eqb symbol "NVDA" then Ok (bars [7]%Q)
       else if String.eqb symbol "TSLA" then Ok (bars [])
       else if String.eqb symbol "INTC" then Ok (table gapped)
       else if String.eqb symbol "AMD" then Ok (bars huge)
       else Raise "connection error")
    (2024, 6, 3)%nat
    (fun symbol => Ok symbol)
    (fun symbol => if String.eqb symbol "BRK-B" then Ok [] else Ok ["2024-06-07"; "2024-06-14"])
    (fun symbol expiry => if String.eqb symbol "MSFT" then Raise "timeout" else Ok chain)
    rounding.

Definition state0 : State := mkState ∅ 0 ∅ None None.

(** A state in which object 0 is a series with the given closes. *)
Definition series_state (closes : list Q) : State :=
  mkState {[ 0%nat := bars closes ]} 1 ∅ None None.

(** A state in which object 0 is a table with the given cells as closes. *)
Definition table_state (closes : list PyFloat) : State :=
  mkState {[ 0%nat := table closes ]} 1 ∅ None None.

End Demo.

(** The demo world with a fit that is off by a little: the slope by 1/1000,
    the intercept by -1/100. *)
Module DemoRounded.

Definition provider : Provider :=
  mkProvider (yf_download Demo.provider) (date_today Demo.provider)
             (ticker_shortName Demo.provider)
             (ticker_options Demo.provider) (ticker_option_chain Demo.provider)
             (fun _ _ => Ok (1 # 1000, - (1 # 100))%Q).

End DemoRounded.

(** The demo world with a provider that cannot tell the name of a stock. *)
Module DemoNoInfo.

Definition provider : Provider :=
  mkProvider (yf_download Demo.provider) (date_today Demo.provider)
             (fun _ => Raise "info unavailable")
             (ticker_options Demo.provider) (ticker_option_chain Demo.provider)
             (fit_rounding Demo.provider).

End DemoNoInfo.

(** ** Observations on a trace *)

(** The arguments of the calls to [fetch_stock_data]. *)
Definition fetch_calls (t : list Event) : list (string * DateArg * DateArg) :=
  omap (fun ev => match ev with EvCallFetch k a b => Some (k, a, b) | _ => None end) t.

(** The arguments of the requests sent to [yf.download]. *)
Definition downloads (t : list Event) : list (string * DateArg * DateArg) :=
  omap (fun ev => match ev with EvDownload k a b => Some (k, a, b) | _ => None end) t.

(** The arguments of the calls to [analyze_single_stock]. *)
Definition analyze_calls (t : list Event) : list (string * Q * Q) :=
  omap (fun ev => match ev with EvCallAnalyze k c p => Some (k, c, p) | _ => None end) t.

(** The recommendation categories shown. *)
Definition categories (t : list Event) : list Category :=
  omap (fun ev => match ev with
                  | EvUi (StSuccess cat _ _) => Some cat
                  | EvUi StInfoHold => Some HOLD
                  | _ => None
                  end) t.

(** The option tables shown. *)
Definition dataframes (t : list Event) : list (list OptionContract) :=
  omap (fun ev => match ev with EvUi (StDataframe rows) => Some rows | _ => None end) t.

(** ** Vocabulary of the properties *)

Local Open Scope Q_scope.

(** [m] never lets an exception escape. *)
Definition never_raises {A} (m : M A) : Prop :=
  forall s, exists a, result_of (m s) = Ok a.

(** Every event [m] emits satisfies [P]. *)
Definition all_events {A} (P : Event -> Prop) (m : M A) : Prop :=
  forall s, Forall P (trace_of (m s)).

(** [m] leaves the state as it found it. *)
Definition keeps_state {A} (m : M A) : Prop := forall s, state_of (m s) = s.

(** An event that is output only. *)
Definition is_ui (ev : Event) : Prop :=
  match ev with EvUi _ => True | _ => False end.

(** The object [l] after [data[name] = values]. *)
Definition with_column (name : string) (values : list PyFloat) (d : DataFrame) : DataFrame :=
  mkDataFrame (df_index d) (<[name := values]> (df_columns d)).

(** The state after object [l] has become [d]. *)
Definition store (l : nat) (d : DataFrame) (s : State) : State :=
  set_heap (<[l := d]> (heap s)) (next_id s) s.

(** The day numbers the forecaster writes into the series. *)
Definition day_index (n : nat) : list Q := map inject_Z (np_arange 0 (Z.of_nat n)).

(** The same as the cells of the column "Days". *)
Definition day_cells (n : nat) : list PyFloat := map Finite (day_index n).

(** [model.predict] at one point. *)
Definition predict_at (m : LinearModel) (x : Q) : Q := x * coef_ m + intercept_ m.


(** The chain the screener works on: the one of the first expiry date,
    when the name, the expiry dates and the chain can all be retrieved. *)
Definition screened_chain (env : Provider) (stock : string) : option OptionChain :=
  match ticker_shortName env stock, ticker_options env stock with
  | Ok _, Ok (expiry :: _) =>
      match ticker_option_chain env stock expiry with
      | Ok chain => Some chain
      | Raise _ => None
      end
  | _, _ => None
  end.

(** The arguments the batch loop passes to the loader for one ticker. *)
Definition batch_fetch_args (env : Provider) (ticker : string) : string * DateArg * DateArg :=
  (ticker, PdTimestamp (2022, 1, 1)%nat, PyDate (date_today env)).

(** The arguments the second loop passes to the screener for one row. *)
Definition screener_args (entry : Entry) : string * Q * Q :=
  (str_replace "." "-" (e_ticker entry), e_current entry, e_predicted entry).

(** The rows the second loop of [find_top_recommendations] goes through, as a
    function of [results]. *)
Definition sorted_results (results : list Entry) : list Entry :=
  let valid_results := filter (fun entry => valid_entry entry = true) results in
  match valid_results with
  | [] => []
  | _ :: _ => take 5 (sorted_desc valid_results)
  end.

(** [y] does not rank above [x]. *)
Definition ranks_before (x y : Entry) : Prop := e_movement y <= e_movement x.

(** The movement of a row is the distance between its two prices. *)
Definition movement_ok (entry : Entry) : Prop :=
  e_movement entry = Qabs (e_predicted entry - e_current entry).

(** The provider has nothing for [ticker]: the request fails or comes back
    empty. *)
Definition no_data_for (env : Provider) (ticker : string) : Prop :=
  forall a b,
    match yf_download env (str_replace "." "-" ticker) a b with
    | Ok d => df_empty d = true
    | Raise _ => True
    end.

(** Every value remembered by the cache is a failure. *)
Definition cache_all_failed (s : State) : Prop :=
  forall k v msgs, fetch_cache s !! k = Some (v, msgs) -> v = None.

(** With the date widgets set to other values. *)
Definition with_dates (inp : UiInput) (start_date end_date : nat * nat * nat) : UiInput :=
  mkUiInput (in_selected_stock inp) start_date end_date
            (in_analyze_clicked inp) (in_top_clicked inp).

(** [m] takes every state to one related to it by [R]. *)
Definition preserves {A} (R : State -> State -> Prop) (m : M A) : Prop :=
  forall s, R s (state_of (m s)).

(** The two session values are the same in both states. *)
Definition same_session (s s' : State) : Prop :=
  session_selected_stock s' = session_selected_stock s
  /\ session_stock_data s' = session_stock_data s.

(** Whatever the cache remembers in [s] it still remembers in [s']. *)
Definition cache_grows (s s' : State) : Prop :=
  forall k, is_Some (fetch_cache s !! k) -> is_Some (fetch_cache s' !! k).

(** Object identities are handed out in increasing order: none at or above
    [next_id] is in use. *)
Definition heap_wf (s : State) : Prop :=
  forall l, (next_id s <= l)%nat -> heap s !! l = None.

(** From a well-formed heap to a well-formed heap in which every object is
    still there. *)
Definition heap_grows (s s' : State) : Prop :=
  heap_wf s ->
  heap_wf s' /\ (next_id s <= next_id s')%nat
  /\ forall l, is_Some (heap s !! l) -> is_Some (heap s' !! l).

(** The DataFrame a run of the loader has returned, if any. *)
Definition returned_frame (r : PyResult (option nat) * State * list Event)
    : option DataFrame :=
  match result_of r with
  | Ok (Some l) => heap (state_of r) !! l
  | _ => None
  end.

(** From bearish to bullish. *)
Definition bullishness (cat : Category) : Z :=
  match cat with
  | BUY_PUTS => -1
  | HOLD => 0
  | BUY_CALLS => 1
  end.

(** The string has no occurrence of the character. *)
Fixpoint free_of (ch : ascii) (s : string) : Prop :=
  match s with
  | EmptyString => True
  | String c rest => c <> ch /\ free_of ch rest
  end.

(** The cache entry written after a miss. *)
Definition remember (ticker : string) (a b : DateArg) (v : option DataFrame)
    (msgs : list UiMsg) (s : State) : State :=
  set_fetch_cache (<[(ticker, a, b) := (v, msgs)]> (fetch_cache s)) s.

(** Whatever [m] returns satisfies [P]. *)
Definition returns {A} (P : A -> Prop) (m : M A) : Prop :=
  forall s a, result_of (m s) = Ok a -> P a.

(** What [predict_price_movement] does inside its [try] once the column
    "Days" is written, for a series of [n] bars. *)
Definition forecast_from_days (env : Provider) (l n : nat) (days : Z)
    : M (option Q * option Q) :=
  X <- get_column l "Days" ;;
  y <- get_column l "Close" ;;
  model <- lift (LinearRegression_fit (fit_rounding env) X y) ;;
  let future_days :=
    map inject_Z (np_arange (Z.of_nat n) (Z.of_nat n + days)) in
  predictions <- lift (LinearRegression_predict model future_days) ;;
  close <- get_column l "Close" ;;
  last_close <- lift (py_last close) ;;
  current <- lift (float_value last_close) ;;
  predicted <- lift (py_last predictions) ;;
  ret (Some current, Some predicted).

(** Its [except] branch. *)
Definition forecast_failed (e : string) : M (option Q * option Q) :=
  st_warning (ErrorPrediction e) ;;; ret (None, None).


(** Sequencing of Python results. *)
Definition and_then {A B} (r : PyResult A) (f : A -> PyResult B) : PyResult B :=
  match r with
  | Ok a => f a
  | Raise e => Raise e
  end.

(** What the [try] block of [predict_price_movement] computes from a table
    of at least 2 bars: the two prices, or the exception that ends it. *)
Definition forecast_outcome (env : Provider) (d : DataFrame) (days : Z)
    : PyResult (Q * Q) :=
  and_then (match df_columns d !! "Close" with
            | Some y => Ok y
            | None => Raise "KeyError"
            end) (fun y =>
  and_then (LinearRegression_fit (fit_rounding env) (day_cells (df_len d)) y)
    (fun model =>
  and_then (LinearRegression_predict model
              (map inject_Z (np_arange (Z.of_nat (df_len d))
                               (Z.of_nat (df_len d) + days)))) (fun predictions =>
  and_then (py_last y) (fun last_close =>
  and_then (float_value last_close) (fun current =>
  and_then (py_last predictions) (fun predicted =>
  Ok (current, predicted))))))).

(** The prices the forecaster gets out of a table, if any. *)
Definition forecast_table (env : Provider) (d : DataFrame) (days : Z) : option (Q * Q) :=
  if (df_len d <? 2)%nat then None
  else match forecast_outcome env d days with
       | Ok prices => Some prices
       | Raise _ => None
       end.

(** The row of the batch run for one ticker: what the loader and then the
    forecaster make of it when they are run on their own in state [s], with
    the dates and the horizon of the batch run. No row when the loader
    returns nothing or the forecaster returns no prices. *)
Definition forecast_ticker (env : Provider) (s : State) (ticker : string) : option Entry :=
  match fetch_stock_data env ticker (PdTimestamp (2022, 1, 1)%nat)
          (PyDate (date_today env)) s with
  | (Ok (Some l), s1, _) =>
      match result_of (predict_price_movement env (Some l) 7 s1) with
      | Ok (Some current, Some predicted) =>
          Some (mkEntry ticker current predicted (Qabs (predicted - current)))
      | _ => None
      end
  | _ => None
  end.

(** The rows of the tickers with a valid forecast, in the order of the
    universe. *)
Definition valid_forecasts (env : Provider) (s : State) (universe : list string)
    : list Entry :=
  omap (forecast_ticker env s) universe.

(** The table the loader hands out for a request made in state [s]: what
    the cache remembers for it or, when it remembers nothing, what the
    provider sends, if that is not empty. *)
Definition loaded_table (env : Provider) (s : State) (ticker : string) (a b : DateArg)
    : option DataFrame :=
  match fetch_cache s !! (ticker, a, b) with
  | Some (v, _) => v
  | None =>
      match yf_download env (str_replace "." "-" ticker) a b with
      | Ok d => if df_empty d then None else Some d
      | Raise _ => None
      end
  end.

(** The loader hands out the same tables in [s'] as in [s]. *)
Definition same_tables (env : Provider) (s s' : State) : Prop :=
  forall ticker a b, loaded_table env s' ticker a b = loaded_table env s ticker a b.

(** The forecaster gets no prices out of the table: it has fewer than 2
    bars, or no column "Close", or the fit raises on its closes (one of them
    is not finite, their number is not that of the bars, or the arithmetic
    of the fit overflows). *)
Definition no_forecast_from (env : Provider) (d : DataFrame) : Prop :=
  (df_len d < 2)%nat
  \/ df_columns d !! "Close" = None
  \/ exists y e,
       df_columns d !! "Close" = Some y
       /\ LinearRegression_fit (fit_rounding env) (day_cells (df_len d)) y = Raise e.

(** The provider has nothing to forecast from for [ticker]: the request
    fails, or comes back empty, or with a table the forecaster gets no
    prices out of. *)
Definition no_forecast_for (env : Provider) (ticker : string) : Prop :=
  forall a b,
    match yf_download env (str_replace "." "-" ticker) a b with
    | Ok d => df_empty d = true \/ no_forecast_from env d
    | Raise _ => True
    end.

(** The forecaster gets no prices out of any table the cache remembers. *)
Definition cache_without_forecast (env : Provider) (s : State) : Prop :=
  forall k d msgs, fetch_cache s !! k = Some (Some d, msgs) -> no_forecast_from env d.

(** * Properties *)

(** ** Comparisons *)

Lemma Qleb_le (x y : Q) : Qleb x y = true <-> x <= y.
Proof. apply Qle_bool_iff. Qed.

Lemma Qltb_lt (x y : Q) : Qltb x y = true <-> x < y.
Proof.
  unfold Qltb. rewrite negb_true_iff.
  split.
  - intros H. apply Qnot_le_lt. intros Hle.
    apply Qle_bool_iff in Hle. congruence.
  - intros H. destruct (Qle_bool y x) eqn:E; [|reflexivity].
    apply Qle_bool_iff in E. exfalso. apply (Qlt_not_le _ _ H E).
Qed.

Lemma Qltb_ge (x y : Q) : Qltb x y = false <-> y <= x.
Proof.
  unfold Qltb. rewrite negb_false_iff. apply Qle_bool_iff.
Qed.

(** ** The decision rule *)

Lemma recommendation_BUY_CALLS (c p : Q) :
  recommendation c p = BUY_CALLS <-> c * 1.05 < p.
Proof.
  unfold recommendation. rewrite <- Qltb_lt.
  destruct (Qltb (c * 1.05) p); [tauto|].
  destruct (Qltb p (c * 0.95)); split; congruence.
Qed.

(** The rule is a first-match list: the put branch is reached only when the
    call test has failed. *)
Lemma recommendation_BUY_PUTS (c p : Q) :
  recommendation c p = BUY_PUTS <-> p < c * 0.95 /\ ~ c * 1.05 < p.
Proof.
  unfold recommendation.
  destruct (Qltb (c * 1.05) p) eqn:E1.
  - apply Qltb_lt in E1. split; [congruence | tauto].
  - apply Qltb_ge in E1.
    destruct (Qltb p (c * 0.95)) eqn:E2.
    + apply Qltb_lt in E2. split; [intros _; split; [assumption | lra] | reflexivity].
    + apply Qltb_ge in E2. split; [congruence | intros [H _]; lra].
Qed.

Lemma recommendation_HOLD (c p : Q) :
  recommendation c p = HOLD <-> c * 0.95 <= p /\ p <= c * 1.05.
Proof.
  unfold recommendation.
  destruct (Qltb (c * 1.05) p) eqn:E1.
  - apply Qltb_lt in E1. split; [congruence|]. intros [_ H]. lra.
  - apply Qltb_ge in E1.
    destruct (Qltb p (c * 0.95)) eqn:E2.
    + apply Qltb_lt in E2. split; [congruence|]. intros [H _]. lra.
    + apply Qltb_ge in E2. tauto.
Qed.

(** ** The strike filter *)

Lemma strike_in_range_spec (c : Q) (k : OptionContract) :
  strike_in_range c k = true <-> 0.95 * c <= strike k /\ strike k <= 1.05 * c.
Proof.
  unfold strike_in_range. rewrite andb_true_iff, !Qleb_le.
  split; intros [H1 H2]; split; lra.
Qed.

Lemma filter_strike_spec (c : Q) (chain : list OptionContract) (k : OptionContract) :
  In k (filter (fun k => strike_in_range c k = true) chain)
  <-> In k chain /\ 0.95 * c <= strike k /\ strike k <= 1.05 * c.
Proof.
  rewrite <- !list_elem_of_In, list_elem_of_filter, strike_in_range_spec. tauto.
Qed.

(** ** Ticker normalisation *)

Lemma str_replace_length (old new : ascii) (s : string) :
  String.length (str_replace old new s) = String.length s.
Proof. induction s as [|c s IH]; simpl; congruence. Qed.

Lemma str_replace_get (old new : ascii) (s : string) (i : nat) :
  String.get i (str_replace old new s)
  = option_map (fun c => if Ascii.eqb c old then new else c) (String.get i s).
Proof.
  revert i. induction s as [|c s IH]; intros i; simpl; [reflexivity|].
  destruct i; simpl; [reflexivity | apply IH].
Qed.

(** ** Running the monad *)

Section MonadFacts.

Context {A B : Type}.

Lemma result_bind (m : M A) (f : A -> M B) (s : State) :
  result_of (bind m f s)
  = match result_of (m s) with
    | Ok a => result_of (f a (state_of (m s)))
    | Raise e => Raise e
    end.
Proof.
  unfold bind, result_of, state_of.
  destruct (m s) as [[[a|e] s1] t1]; simpl; [|reflexivity].
  destruct (f a s1) as [[r s2] t2]; reflexivity.
Qed.

Lemma state_bind (m : M A) (f : A -> M B) (s : State) :
  state_of (bind m f s)
  = match result_of (m s) with
    | Ok a => state_of (f a (state_of (m s)))
    | Raise e => state_of (m s)
    end.
Proof.
  unfold bind, result_of, state_of.
  destruct (m s) as [[[a|e] s1] t1]; simpl; [|reflexivity].
  destruct (f a s1) as [[r s2] t2]; reflexivity.
Qed.

Lemma trace_bind (m : M A) (f : A -> M B) (s : State) :
  trace_of (bind m f s)
  = trace_of (m s)
    ++ match result_of (m s) with
       | Ok a => trace_of (f a (state_of (m s)))
       | Raise e => []
       end.
Proof.
  unfold bind, result_of, state_of, trace_of.
  destruct (m s) as [[[a|e] s1] t1]; simpl; [|by rewrite app_nil_r].
  destruct (f a s1) as [[r s2] t2]; reflexivity.
Qed.

Lemma result_try_except (m : M A) (h : string -> M A) (s : State) :
  result_of (try_except m h s)
  = match result_of (m s) with
    | Ok a => Ok a
    | Raise e => result_of (h e (state_of (m s)))
    end.
Proof.
  unfold try_except, result_of, state_of.
  destruct (m s) as [[[a|e] s1] t1]; simpl; [reflexivity|].
  destruct (h e s1) as [[r s2] t2]; reflexivity.
Qed.

Lemma state_try_except (m : M A) (h : string -> M A) (s : State) :
  state_of (try_except m h s)
  = match result_of (m s) with
    | Ok a => state_of (m s)
    | Raise e => state_of (h e (state_of (m s)))
    end.
Proof.
  unfold try_except, result_of, state_of.
  destruct (m s) as [[[a|e] s1] t1]; simpl; [reflexivity|].
  destruct (h e s1) as [[r s2] t2]; reflexivity.
Qed.

Lemma trace_try_except (m : M A) (h : string -> M A) (s : State) :
  trace_of (try_except m h s)
  = trace_of (m s)
    ++ match result_of (m s) with
       | Ok a => []
       | Raise e => trace_of (h e (state_of (m s)))
       end.
Proof.
  unfold try_except, result_of, state_of, trace_of.
  destruct (m s) as [[[a|e] s1] t1]; simpl; [by rewrite app_nil_r|].
  destruct (h e s1) as [[r s2] t2]; reflexivity.
Qed.

End MonadFacts.

Create HintDb run discriminated.

Section RunFacts.

Context {A B : Type}.

Lemma never_raises_ret (a : A) : never_raises (ret a).
Proof. intros s. by exists a. Qed.

Lemma never_raises_emit (ev : Event) : never_raises (emit ev).
Proof. intros s. by exists tt. Qed.

Lemma never_raises_modify (f : State -> State) : never_raises (modify f).
Proof. intros s. by exists tt. Qed.

Lemma never_raises_get : never_raises get.
Proof. intros s. by exists s. Qed.

Lemma never_raises_bind (m : M A) (f : A -> M B) :
  never_raises m -> (forall a, never_raises (f a)) -> never_raises (bind m f).
Proof.
  intros Hm Hf s. rewrite result_bind.
  destruct (Hm s) as [a ->]. apply Hf.
Qed.

Lemma never_raises_try_except (m : M A) (h : string -> M A) :
  (forall e, never_raises (h e)) -> never_raises (try_except m h).
Proof.
  intros Hh s. rewrite result_try_except.
  destruct (result_of (m s)) as [a|e]; [by exists a | apply Hh].
Qed.

Lemma all_events_ret P (a : A) : all_events P (ret a).
Proof. intros s. constructor. Qed.

Lemma all_events_raise P (e : string) : all_events P (@raise A e).
Proof. intros s. constructor. Qed.

Lemma all_events_lift P (r : PyResult A) : all_events P (lift r).
Proof. intros s. constructor. Qed.

Lemma all_events_get P : all_events P get.
Proof. intros s. constructor. Qed.

Lemma all_events_modify P (f : State -> State) : all_events P (modify f).
Proof. intros s. constructor. Qed.

Lemma all_events_emit (P : Event -> Prop) (ev : Event) : P ev -> all_events P (emit ev).
Proof. intros H s. repeat constructor. exact H. Qed.

Lemma all_events_bind P (m : M A) (f : A -> M B) :
  all_events P m -> (forall a, all_events P (f a)) -> all_events P (bind m f).
Proof.
  intros Hm Hf s. rewrite trace_bind. apply Forall_app. split; [apply Hm|].
  destruct (result_of (m s)); [apply Hf | constructor].
Qed.

Lemma all_events_try_except P (m : M A) (h : string -> M A) :
  all_events P m -> (forall e, all_events P (h e)) -> all_events P (try_except m h).
Proof.
  intros Hm Hh s. rewrite trace_try_except. apply Forall_app. split; [apply Hm|].
  destruct (result_of (m s)); [constructor | apply Hh].
Qed.

Lemma all_events_listen P (m : M A) : all_events P m -> all_events P (listen m).
Proof.
  intros Hm s. specialize (Hm s). unfold listen, trace_of in *.
  destruct (m s) as [[[a|e] s1] t1]; exact Hm.
Qed.

Lemma all_events_alloc P (d : DataFrame) : all_events P (alloc d).
Proof. intros s. constructor. Qed.

Lemma all_events_deref P (l : nat) : all_events P (deref l).
Proof. intros s. unfold deref, trace_of. destruct (heap s !! l); constructor. Qed.

End RunFacts.

#[local] Hint Resolve never_raises_ret never_raises_emit never_raises_modify
  never_raises_get never_raises_bind never_raises_try_except : run.
#[local] Hint Resolve all_events_ret all_events_raise all_events_lift
  all_events_get all_events_modify all_events_emit all_events_bind
  all_events_try_except all_events_listen all_events_alloc all_events_deref : run.

(** An observation that keeps none of the events of a trace is empty. *)
Lemma omap_silent {X} (f : Event -> option X) (t : list Event) :
  Forall (fun ev => f ev = None) t -> omap f t = [].
Proof.
  induction 1 as [|ev t Hev _ IH]; simpl; [reflexivity|].
  by rewrite Hev.
Qed.

Lemma all_events_ui P (m : UiMsg) : P (EvUi m) -> all_events P (ui m).
Proof. apply all_events_emit. Qed.

Lemma all_events_st_warning P (w : WarningMsg) :
  P (EvUi (StWarning w)) -> all_events P (st_warning w).
Proof. apply all_events_emit. Qed.

Lemma never_raises_ui (m : UiMsg) : never_raises (ui m).
Proof. apply never_raises_emit. Qed.

Lemma never_raises_st_warning (w : WarningMsg) : never_raises (st_warning w).
Proof. apply never_raises_emit. Qed.

#[local] Hint Resolve all_events_ui all_events_st_warning never_raises_ui
  never_raises_st_warning : run.

Lemma all_events_set_column P l name values : all_events P (set_column l name values).
Proof.
  unfold set_column. apply all_events_bind; [auto with run|].
  intros d. destruct (_ =? _)%nat; auto with run.
Qed.

Lemma all_events_get_column P l name : all_events P (get_column l name).
Proof.
  unfold get_column. apply all_events_bind; [auto with run|].
  intros d. destruct (_ !! _); auto with run.
Qed.

#[local] Hint Resolve all_events_set_column all_events_get_column : run.

(** ** What each function emits *)

Section Emits.

Variable env : Provider.

Lemma all_events_replay P msgs :
  (forall m, P (EvUi m)) -> all_events P (replay msgs).
Proof.
  intros HP. induction msgs as [|m msgs IH]; simpl; auto with run.
Qed.

Lemma all_events_materialize P v : all_events P (materialize v).
Proof. destruct v; simpl; auto with run. Qed.

Lemma all_events_fetch_stock_data_body P ticker a b :
  (forall m, P (EvUi m)) ->
  P (EvDownload (str_replace "." "-" ticker) a b) ->
  all_events P (fetch_stock_data_body env ticker a b).
Proof.
  intros HP HD. unfold fetch_stock_data_body.
  apply all_events_try_except; [|auto with run].
  apply all_events_bind; [auto with run|]. intros _.
  apply all_events_bind; [auto with run|]. intros d.
  apply all_events_bind; [auto with run|]. intros l.
  destruct (df_empty d); auto with run.
Qed.

Lemma all_events_fetch_stock_data P ticker a b :
  (forall m, P (EvUi m)) ->
  P (EvDownload (str_replace "." "-" ticker) a b) ->
  P (EvCallFetch ticker a b) ->
  all_events P (fetch_stock_data env ticker a b).
Proof.
  intros HP HD HC. unfold fetch_stock_data.
  apply all_events_bind; [auto with run|]. intros _.
  apply all_events_bind; [auto with run|]. intros s.
  destruct (fetch_cache s !! _) as [[v msgs]|].
  - apply all_events_bind; [by apply all_events_replay|].
    intros _. apply all_events_materialize.
  - apply all_events_bind.
    + apply all_events_listen. by apply all_events_fetch_stock_data_body.
    + intros [r t]. auto with run.
Qed.

Lemma all_events_predict_price_movement P data days :
  (forall m, P (EvUi m)) -> all_events P (predict_price_movement env data days).
Proof.
  intros HP. unfold predict_price_movement.
  destruct data as [l|]; [|auto with run].
  apply all_events_bind; [auto with run|]. intros d.
  destruct (_ <? _)%nat; auto 20 with run.
Qed.

Lemma all_events_st_recommend P c p :
  (forall m, P (EvUi m)) -> all_events P (st_recommend c p).
Proof.
  intros HP. unfold st_recommend. destruct (recommendation c p); auto with run.
Qed.

Lemma all_events_analyze_single_stock P stock c p :
  (forall m, P (EvUi m)) ->
  P (EvCallAnalyze stock c p) ->
  all_events P (analyze_single_stock env stock c p).
Proof.
  intros HP HC. unfold analyze_single_stock.
  apply all_events_bind; [auto with run|]. intros _.
  apply all_events_bind; [auto with run|]. intros name.
  apply all_events_bind; [auto with run|]. intros _.
  apply all_events_try_except; [|auto with run].
  apply all_events_bind; [auto with run|]. intros [|o os]; [auto with run|].
  apply all_events_bind; [auto with run|]. intros ds.
  apply all_events_bind; [auto with run|]. intros e.
  apply all_events_bind; [auto with run|]. intros ch.
  repeat (apply all_events_bind; [auto with run|]; intros _).
  by apply all_events_st_recommend.
Qed.

End Emits.

(** ** The batch loop *)

Section Batch.

Variable env : Provider.

Lemma trace_fetch_stock_data P ticker a b s :
  (forall m, P (EvUi m)) ->
  P (EvDownload (str_replace "." "-" ticker) a b) ->
  exists t,
    trace_of (fetch_stock_data env ticker a b s) = EvCallFetch ticker a b :: t
    /\ Forall P t.
Proof.
  intros HP HD. unfold fetch_stock_data. rewrite trace_bind. simpl.
  eexists. split; [reflexivity|].
  apply all_events_bind; [auto with run|]. intros s'.
  destruct (fetch_cache s' !! _) as [[v msgs]|].
  - apply all_events_bind; [by apply all_events_replay|].
    intros _. apply all_events_materialize.
  - apply all_events_bind.
    + apply all_events_listen. by apply all_events_fetch_stock_data_body.
    + intros [r t]. auto with run.
Qed.

Lemma trace_analyze_single_stock stock c p s :
  exists t,
    trace_of (analyze_single_stock env stock c p s) = EvCallAnalyze stock c p :: t
    /\ Forall is_ui t.
Proof.
  pose proof (all_events_analyze_single_stock env
                (fun ev => ev = EvCallAnalyze stock c p \/ is_ui ev) stock c p) as H.
  unfold analyze_single_stock in *. rewrite trace_bind. simpl.
  eexists. split; [reflexivity|].
  set (rest := bind (lift (ticker_shortName env stock)) _).
  enough (all_events is_ui rest) as Hr by apply Hr.
  subst rest.
  apply all_events_bind; [auto with run|]. intros name.
  apply all_events_bind; [apply all_events_ui; exact I|]. intros _.
  apply all_events_try_except; [|intros e; apply all_events_st_warning; exact I].
  apply all_events_bind; [auto with run|].
  intros [|o os]; [apply all_events_bind; [auto with run|];
                   intros n; apply all_events_st_warning; exact I|].
  apply all_events_bind; [auto with run|]. intros ds.
  apply all_events_bind; [auto with run|]. intros e.
  apply all_events_bind; [auto with run|]. intros ch.
  repeat (apply all_events_bind; [apply all_events_ui; exact I|]; intros _).
  apply all_events_st_recommend. intros m. exact I.
Qed.

Lemma never_raises_process_ticker ticker results :
  never_raises (process_ticker env ticker results).
Proof. unfold process_ticker. auto with run. Qed.

Lemma never_raises_collect_results universe results :
  never_raises (collect_results env universe results).
Proof.
  revert results. induction universe as [|t rest IH]; intros results; simpl.
  - auto with run.
  - apply never_raises_bind; [apply never_raises_process_ticker | apply IH].
Qed.

Lemma never_raises_show_entry entry : never_raises (show_entry env entry).
Proof. unfold show_entry. auto with run. Qed.

Lemma never_raises_show_entries l : never_raises (show_entries env l).
Proof.
  induction l as [|entry rest IH]; simpl; [auto with run|].
  apply never_raises_bind; [apply never_raises_show_entry | intros _; exact IH].
Qed.

Lemma never_raises_find_top_recommendations_over universe :
  never_raises (find_top_recommendations_over env universe).
Proof.
  unfold find_top_recommendations_over.
  apply never_raises_bind; [auto with run|]. intros _.
  apply never_raises_bind; [apply never_raises_collect_results|]. intros results.
  destruct (filter _ results); [auto with run | apply never_raises_show_entries].
Qed.

(** What one iteration of the first loop emits: the call to the loader, then
    requests to the provider and output. *)
Lemma trace_process_ticker ticker results s :
  exists t,
    trace_of (process_ticker env ticker results s)
    = EvCallFetch ticker (PdTimestamp (2022, 1, 1)%nat) (PyDate (date_today env)) :: t
    /\ Forall (fun ev => match ev with
                         | EvUi _ => True
                         | EvDownload k a b =>
                             k = str_replace "." "-" ticker
                             /\ a = PdTimestamp (2022, 1, 1)%nat
                             /\ b = PyDate (date_today env)
                         | _ => False
                         end) t.
Proof.
  unfold process_ticker. rewrite trace_try_except, trace_bind.
  set (P := fun ev : Event => match ev with
                      | EvUi _ => True
                      | EvDownload k a b => _
                      | _ => False end).
  destruct (trace_fetch_stock_data P ticker (PdTimestamp (2022, 1, 1)%nat)
              (PyDate (date_today env)) s) as (t & -> & Ht);
    [intros m; exact I | simpl; auto |].
  eexists. split; [rewrite <- !app_assoc; simpl; reflexivity|].
  apply Forall_app. split; [exact Ht|].
  apply Forall_app. split.
  - destruct (result_of (fetch_stock_data _ _ _ _ _)) as [[l|]|e];
      [|apply all_events_ret | constructor].
    apply all_events_bind;
      [apply all_events_predict_price_movement; intros m; exact I|].
    intros [[c|] [p|]]; apply all_events_ret.
  - destruct (result_of (bind _ _ s)); [constructor|].
    repeat constructor.
Qed.

End Batch.

Section BatchTrace.

Variable env : Provider.

Lemma omap_all_events {X A} (f : Event -> option X) (m : M A) s :
  all_events (fun ev => f ev = None) m -> omap f (trace_of (m s)) = [].
Proof. intros H. apply omap_silent, H. Qed.

Lemma trace_listen {A} (m : M A) s : trace_of (listen m s) = trace_of (m s).
Proof. unfold listen, trace_of. by destruct (m s) as [[[a|e] s1] t1]. Qed.

Lemma trace_fetch_stock_data_body ticker a b s :
  exists t,
    trace_of (fetch_stock_data_body env ticker a b s)
    = EvDownload (str_replace "." "-" ticker) a b :: t
    /\ Forall is_ui t.
Proof.
  unfold fetch_stock_data_body. rewrite trace_try_except, trace_bind.
  change (trace_of (emit ?ev s)) with [ev].
  change (result_of (emit ?ev s)) with (Ok (A:=unit) tt).
  change (state_of (emit ?ev s)) with s. cbv iota.
  eexists. split; [rewrite <- !app_assoc; simpl; reflexivity|].
  apply Forall_app. split.
  - apply all_events_bind; [auto with run|]. intros d.
    apply all_events_bind; [auto with run|]. intros l.
    destruct (df_empty d); [|auto with run].
    apply all_events_bind; [apply all_events_st_warning; exact I | auto with run].
  - destruct (result_of _); [constructor | repeat constructor].
Qed.

Lemma downloads_fetch_stock_data ticker a b s :
  downloads (trace_of (fetch_stock_data env ticker a b s))
  = match fetch_cache s !! (ticker, a, b) with
    | Some _ => []
    | None => [(str_replace "." "-" ticker, a, b)]
    end.
Proof.
  unfold fetch_stock_data. rewrite trace_bind.
  change (result_of (emit (EvCallFetch ticker a b) s)) with (Ok (A:=unit) tt).
  change (state_of (emit (EvCallFetch ticker a b) s)) with s.
  cbv iota. rewrite trace_bind.
  change (result_of (get s)) with (Ok s). change (state_of (get s)) with s.
  cbv iota.
  unfold downloads. rewrite !omap_app.
  change (trace_of (emit (EvCallFetch ticker a b) s)) with [EvCallFetch ticker a b].
  change (trace_of (get s)) with (@nil Event).
  cbn [omap list_omap app].
  destruct (fetch_cache s !! (ticker, a, b)) as [[v msgs]|] eqn:E.
  - apply (omap_all_events _ (bind (replay msgs) _)).
    apply all_events_bind; [by apply all_events_replay|].
    intros _. apply all_events_materialize.
  - rewrite trace_bind, omap_app, trace_listen.
    destruct (trace_fetch_stock_data_body ticker a b s) as (t & -> & Ht).
    cbn [omap list_omap]. rewrite (omap_silent _ t).
    + destruct (result_of _) as [[r t']|e]; reflexivity.
    + eapply Forall_impl; [exact Ht|]. by intros [].
Qed.

End BatchTrace.

Section BatchObservations.

Variable env : Provider.

Lemma all_events_process_ticker P ticker results :
  (forall m, P (EvUi m)) ->
  (forall k a b, P (EvDownload k a b)) ->
  P (EvCallFetch ticker (PdTimestamp (2022, 1, 1)%nat) (PyDate (date_today env))) ->
  all_events P (process_ticker env ticker results).
Proof.
  intros HU HD HC. unfold process_ticker.
  apply all_events_try_except; [|auto with run].
  apply all_events_bind; [by apply all_events_fetch_stock_data|].
  intros [l|]; [|auto with run].
  apply all_events_bind; [by apply all_events_predict_price_movement|].
  intros [[c|] [p|]]; auto with run.
Qed.

Lemma all_events_collect_results P universe results :
  (forall m, P (EvUi m)) ->
  (forall k a b, P (EvDownload k a b)) ->
  (forall k, P (EvCallFetch k (PdTimestamp (2022, 1, 1)%nat) (PyDate (date_today env)))) ->
  all_events P (collect_results env universe results).
Proof.
  intros HU HD HC. revert results.
  induction universe as [|t rest IH]; intros results; simpl; [auto with run|].
  apply all_events_bind; [by apply all_events_process_ticker | apply IH].
Qed.

Lemma fetch_calls_process_ticker ticker results s :
  fetch_calls (trace_of (process_ticker env ticker results s))
  = [batch_fetch_args env ticker].
Proof.
  destruct (trace_process_ticker env ticker results s) as (t & -> & Ht).
  unfold fetch_calls. cbn [omap list_omap]. rewrite (omap_silent _ t); [reflexivity|].
  eapply Forall_impl; [exact Ht|]. intros []; simpl; tauto.
Qed.

Lemma fetch_calls_collect_results universe results s :
  fetch_calls (trace_of (collect_results env universe results s))
  = map (batch_fetch_args env) universe.
Proof.
  revert results s. induction universe as [|t rest IH]; intros results s; simpl.
  - reflexivity.
  - rewrite trace_bind. unfold fetch_calls at 1. rewrite omap_app.
    fold (fetch_calls (trace_of (process_ticker env t results s))).
    rewrite fetch_calls_process_ticker.
    destruct (never_raises_process_ticker env t results s) as [r ->].
    simpl. f_equal. apply IH.
Qed.

Lemma all_events_show_entry P entry :
  (forall m, P (EvUi m)) ->
  (forall k, P (EvTicker k)) ->
  (forall k c p, P (EvCallAnalyze k c p)) ->
  all_events P (show_entry env entry).
Proof.
  intros HU HT HA. unfold show_entry.
  apply all_events_try_except; [|auto with run].
  apply all_events_bind; [auto with run|]. intros _.
  apply all_events_bind; [auto with run|]. intros _.
  by apply all_events_analyze_single_stock.
Qed.

Lemma all_events_show_entries P l :
  (forall m, P (EvUi m)) ->
  (forall k, P (EvTicker k)) ->
  (forall k c p, P (EvCallAnalyze k c p)) ->
  all_events P (show_entries env l).
Proof.
  intros HU HT HA. induction l as [|entry rest IH]; simpl; [auto with run|].
  apply all_events_bind; [by apply all_events_show_entry | intros _; exact IH].
Qed.

Lemma analyze_calls_show_entry entry s :
  analyze_calls (trace_of (show_entry env entry s)) = [screener_args entry].
Proof.
  unfold show_entry. rewrite trace_try_except, trace_bind.
  change (result_of (ui ?m s)) with (Ok (A:=unit) tt).
  change (state_of (ui ?m s)) with s. cbv iota.
  rewrite trace_bind.
  change (result_of (emit ?ev s)) with (Ok (A:=unit) tt).
  change (state_of (emit ?ev s)) with s. cbv iota.
  destruct (trace_analyze_single_stock env (str_replace "." "-" (e_ticker entry))
              (e_current entry) (e_predicted entry) s) as (t & -> & Ht).
  unfold analyze_calls. rewrite !omap_app. cbn [omap list_omap app].
  rewrite (omap_silent _ t); [|eapply Forall_impl; [exact Ht|]; by intros []].
  destruct (result_of _); reflexivity.
Qed.

Lemma analyze_calls_show_entries l s :
  analyze_calls (trace_of (show_entries env l s)) = map screener_args l.
Proof.
  revert s. induction l as [|entry rest IH]; intros s; simpl; [reflexivity|].
  rewrite trace_bind. unfold analyze_calls at 1. rewrite omap_app.
  fold (analyze_calls (trace_of (show_entry env entry s))).
  rewrite analyze_calls_show_entry.
  destruct (never_raises_show_entry env entry s) as [[] ->].
  simpl. f_equal. apply IH.
Qed.

(** The run of [find_top_recommendations], cut at the end of its first
    loop. *)
Lemma find_top_recommendations_over_run universe s :
  exists results s1 t1,
    collect_results env universe [] s = (Ok results, s1, t1)
    /\ trace_of (find_top_recommendations_over env universe s)
       = EvUi (StSubheader "Top Recommendations Across Top 50 Stocks")
         :: t1
         ++ match filter (fun entry => valid_entry entry = true) results with
            | [] => [EvUi (StWarning NoValidRecommendations)]
            | _ :: _ => trace_of (show_entries env (sorted_results results) s1)
            end.
Proof.
  destruct (never_raises_collect_results env universe [] s) as [results Hr].
  destruct (collect_results env universe [] s) as [[r s1] t1] eqn:E.
  unfold result_of in Hr. simpl in Hr. subst r.
  exists results, s1, t1. split; [reflexivity|].
  unfold find_top_recommendations_over. rewrite trace_bind.
  change (result_of (ui ?m s)) with (Ok (A:=unit) tt).
  change (state_of (ui ?m s)) with s. cbv iota.
  rewrite trace_bind, E. unfold result_of, state_of, sorted_results. simpl.
  f_equal. f_equal. destruct (filter _ results); reflexivity.
Qed.

Lemma all_events_find_top_recommendations_over P universe :
  (forall m, P (EvUi m)) ->
  (forall k a b, P (EvDownload k a b)) ->
  (forall k, P (EvTicker k)) ->
  (forall k c p, P (EvCallAnalyze k c p)) ->
  (forall k, P (EvCallFetch k (PdTimestamp (2022, 1, 1)%nat) (PyDate (date_today env)))) ->
  all_events P (find_top_recommendations_over env universe).
Proof.
  intros HU HD HT HA HC. unfold find_top_recommendations_over.
  apply all_events_bind; [auto with run|]. intros _.
  apply all_events_bind; [by apply all_events_collect_results|]. intros results.
  destruct (filter _ results); [auto with run | by apply all_events_show_entries].
Qed.

Lemma all_events_tab_options_analysis P :
  (forall m, P (EvUi m)) ->
  (forall k, P (EvTicker k)) ->
  (forall k c p, P (EvCallAnalyze k c p)) ->
  all_events P (tab_options_analysis env).
Proof.
  intros HU HT HA. unfold tab_options_analysis.
  apply all_events_bind; [auto with run|]. intros _.
  apply all_events_bind; [auto with run|]. intros s.
  destruct (session_selected_stock s) as [[|ch rest]|]; [auto with run | | auto with run].
  apply all_events_bind; [auto with run|]. intros _.
  apply all_events_bind; [by apply all_events_predict_price_movement|].
  intros [[c|] [p|]]; auto with run.
  by apply all_events_analyze_single_stock.
Qed.

(** The script run with "Analyze All" selected. *)
Lemma all_events_main_analyze_all P inp :
  in_selected_stock inp = "Analyze All"%string ->
  (forall m, P (EvUi m)) ->
  (forall k a b, P (EvDownload k a b)) ->
  (forall k, P (EvTicker k)) ->
  (forall k c p, P (EvCallAnalyze k c p)) ->
  (forall k, P (EvCallFetch k (PdTimestamp (2022, 1, 1)%nat) (PyDate (date_today env)))) ->
  all_events P (main env inp).
Proof.
  intros Hsel HU HD HT HA HC. unfold main.
  apply all_events_try_except; [|auto with run].
  apply all_events_bind.
  { unfold tab_stock_analysis. rewrite Hsel. simpl.
    apply all_events_bind; [auto with run|]. intros _.
    destruct (in_analyze_clicked inp); [|auto with run].
    by apply all_events_find_top_recommendations_over. }
  intros _. apply all_events_bind; [by apply all_events_tab_options_analysis|].
  intros _. unfold tab_top_recommendations.
  destruct (in_top_clicked inp); [|auto with run].
  by apply all_events_find_top_recommendations_over.
Qed.

End BatchObservations.

(** ** Ranking *)

Lemma insert_desc_perm (x : Entry) (l : list Entry) :
  Permutation (insert_desc x l) (x :: l).
Proof.
  induction l as [|y l IH]; simpl; [reflexivity|].
  destruct (Qltb (e_movement x) (e_movement y)); [|reflexivity].
  rewrite IH. apply perm_swap.
Qed.

Lemma sorted_desc_perm (l : list Entry) : Permutation (sorted_desc l) l.
Proof.
  induction l as [|x l IH]; simpl; [reflexivity|].
  rewrite insert_desc_perm. by constructor.
Qed.

Lemma sorted_desc_length (l : list Entry) : length (sorted_desc l) = length l.
Proof. apply Permutation_length, sorted_desc_perm. Qed.

Lemma insert_desc_sorted (x : Entry) (l : list Entry) :
  StronglySorted ranks_before l -> StronglySorted ranks_before (insert_desc x l).
Proof.
  induction 1 as [|y l Hl IH Hy]; simpl.
  - repeat constructor.
  - destruct (Qltb (e_movement x) (e_movement y)) eqn:E.
    + apply Qltb_lt in E. constructor; [exact IH|].
      rewrite (insert_desc_perm x l). constructor; [|exact Hy].
      unfold ranks_before. lra.
    + apply Qltb_ge in E. constructor; [by constructor|].
      constructor; [exact E|].
      eapply Forall_impl; [exact Hy|].
      unfold ranks_before. intros z Hz. lra.
Qed.

Lemma sorted_desc_sorted (l : list Entry) : StronglySorted ranks_before (sorted_desc l).
Proof.
  induction l as [|x l IH]; simpl; [constructor | by apply insert_desc_sorted].
Qed.

(** The sort is stable: rows with the same movement keep their relative
    order. *)
Lemma insert_desc_filter (P : Entry -> bool) (x : Entry) (l : list Entry) :
  (forall y, In y l -> P y = true -> P x = true ->
             Qltb (e_movement x) (e_movement y) = false) ->
  filter (fun y => P y = true) (insert_desc x l)
  = filter (fun y => P y = true) (x :: l).
Proof.
  induction l as [|y l IH]; intros H; simpl; [reflexivity|].
  destruct (Qltb (e_movement x) (e_movement y)) eqn:E; [|reflexivity].
  rewrite (filter_cons _ y (insert_desc x l)), IH
    by (intros z Hz; apply H; by right).
  rewrite !(filter_cons _ x), !(filter_cons _ y).
  destruct (decide (P y = true)) as [Hy|Hy]; [|reflexivity].
  destruct (decide (P x = true)) as [Hx|Hx]; [|reflexivity].
  rewrite (H y) in E by (simpl; auto). discriminate.
Qed.

Lemma sorted_desc_stable (m : Q) (l : list Entry) :
  filter (fun y => Qeq_bool (e_movement y) m = true) (sorted_desc l)
  = filter (fun y => Qeq_bool (e_movement y) m = true) l.
Proof.
  induction l as [|x l IH]; simpl; [reflexivity|].
  rewrite insert_desc_filter.
  - rewrite !(filter_cons _ x), IH. reflexivity.
  - intros y _ Hy Hx. apply Qeq_bool_iff in Hy, Hx.
    apply Qltb_ge. rewrite Hy, Hx. apply Qle_refl.
Qed.

Lemma sorted_take_drop (l : list Entry) (n : nat) :
  StronglySorted ranks_before l ->
  forall x y, In x (take n l) -> In y (drop n l) -> ranks_before x y.
Proof.
  intros Hs. revert n. induction Hs as [|z l Hl IH Hz]; intros n x y Hx Hy.
  - by rewrite take_nil in Hx.
  - destruct n as [|n]; simpl in *; [contradiction|].
    destruct Hx as [->|Hx]; [|by eapply IH].
    rewrite Forall_forall in Hz. apply Hz.
    apply list_elem_of_In in Hy. by eapply (subseteq_drop n l).
Qed.

Lemma filter_valid_entry (results : list Entry) :
  filter (fun entry => valid_entry entry = true) results = results.
Proof.
  induction results as [|x l IH]; [reflexivity|].
  rewrite filter_cons, IH. reflexivity.
Qed.

(** ** Running the forecaster *)

Lemma bind_silent {A B} (m : M A) (f : A -> M B) s a s1 :
  m s = (Ok a, s1, []) -> bind m f s = f a s1.
Proof.
  intros H. unfold bind. rewrite H. by destruct (f a s1) as [[r s2] t2].
Qed.

Lemma bind_raise {A B} (m : M A) (f : A -> M B) s e s1 t1 :
  m s = (Raise e, s1, t1) -> bind m f s = (Raise e, s1, t1).
Proof. intros H. unfold bind. by rewrite H. Qed.

Lemma try_except_ok {A} (m : M A) (h : string -> M A) s a s1 t1 :
  m s = (Ok a, s1, t1) -> try_except m h s = (Ok a, s1, t1).
Proof. intros H. unfold try_except. by rewrite H. Qed.

Lemma deref_run l s d : heap s !! l = Some d -> deref l s = (Ok d, s, []).
Proof. intros H. unfold deref. by rewrite H. Qed.

Lemma set_column_run l name values s d :
  heap s !! l = Some d ->
  length values = df_len d ->
  set_column l name values s = (Ok tt, store l (with_column name values d) s, []).
Proof.
  intros H Hlen. unfold set_column.
  rewrite (bind_silent _ _ _ _ _ (deref_run _ _ _ H)).
  apply Nat.eqb_eq in Hlen. by rewrite Hlen.
Qed.

Lemma get_column_run l name s d v :
  heap s !! l = Some d ->
  df_columns d !! name = Some v ->
  get_column l name s = (Ok v, s, []).
Proof.
  intros H Hv. unfold get_column.
  rewrite (bind_silent _ _ _ _ _ (deref_run _ _ _ H)). by rewrite Hv.
Qed.

Lemma get_column_missing l name s d :
  heap s !! l = Some d ->
  df_columns d !! name = None ->
  get_column l name s = (Raise "KeyError", s, []).
Proof.
  intros H Hv. unfold get_column.
  rewrite (bind_silent _ _ _ _ _ (deref_run _ _ _ H)). by rewrite Hv.
Qed.

Lemma np_arange_length lo hi : length (np_arange lo hi) = Z.to_nat (hi - lo).
Proof. unfold np_arange. by rewrite length_map, length_seq. Qed.

Lemma last_map {A B} (f : A -> B) (l : list A) :
  last (map f l) = option_map f (last l).
Proof.
  induction l as [|x [|y l] IH]; [reflexivity | reflexivity |].
  exact IH.
Qed.

Lemma np_arange_last lo hi : (lo < hi)%Z -> last (np_arange lo hi) = Some (hi - 1)%Z.
Proof.
  intros H. unfold np_arange.
  destruct (Z.to_nat (hi - lo)) as [|k] eqn:E; [lia|].
  rewrite seq_S, map_app, last_app. simpl. f_equal. lia.
Qed.

Lemma bind_lift {A B} (r : PyResult A) (f : A -> M B) s :
  bind (lift r) f s
  = match r with
    | Ok a => f a s
    | Raise e => (Raise e, s, [])
    end.
Proof.
  unfold bind, lift. destruct r as [a|e]; [|reflexivity].
  by destruct (f a s) as [[r s2] t2].
Qed.

Lemma day_cells_length (n : nat) : length (day_cells n) = n.
Proof.
  unfold day_cells, day_index. rewrite !length_map, np_arange_length. lia.
Qed.

(** The run of the forecaster on a series of at least 2 bars. *)
Lemma predict_price_movement_eval env l days s d :
  heap s !! l = Some d ->
  (2 <= df_len d)%nat ->
  predict_price_movement env (Some l) days s
  = match forecast_outcome env d days with
    | Ok (current, predicted) =>
        (Ok (Some current, Some predicted),
         store l (with_column "Days" (day_cells (df_len d)) d) s, [])
    | Raise e =>
        (Ok (None, None),
         store l (with_column "Days" (day_cells (df_len d)) d) s,
         [EvUi (StWarning (ErrorPrediction e))])
    end.
Proof.
  intros Hl Hn. unfold predict_price_movement.
  rewrite (bind_silent _ _ _ _ _ (deref_run _ _ _ Hl)).
  destruct (df_len d <? 2)%nat eqn:E; [apply Nat.ltb_lt in E; lia|].
  fold (day_index (df_len d)). fold (day_cells (df_len d)).
  set (d' := with_column "Days" (day_cells (df_len d)) d).
  set (s' := store l d' s).
  assert (Hl' : heap s' !! l = Some d') by apply lookup_insert_eq.
  assert (HdX : df_columns d' !! "Days" = Some (day_cells (df_len d)))
    by apply lookup_insert_eq.
  assert (Hdc : df_columns d' !! "Close" = df_columns d !! "Close").
  { subst d'. unfold with_column. simpl. by rewrite lookup_insert_ne. }
  unfold try_except.
  rewrite (bind_silent _ _ _ _ _
             (set_column_run _ _ _ _ _ Hl (day_cells_length (df_len d)))).
  fold d'. fold s'.
  rewrite (bind_silent _ _ _ _ _ (get_column_run _ _ _ _ _ Hl' HdX)).
  unfold forecast_outcome.
  destruct (df_columns d !! "Close") as [y|] eqn:Hc.
  - rewrite (bind_silent _ _ _ _ _ (get_column_run _ _ _ _ _ Hl' Hdc)).
    rewrite bind_lift. cbn [and_then].
    destruct (LinearRegression_fit _ _ y) as [model|e]; [|reflexivity].
    rewrite bind_lift. cbn [and_then].
    destruct (LinearRegression_predict model _) as [predictions|e]; [|reflexivity].
    rewrite (bind_silent _ _ _ _ _ (get_column_run _ _ _ _ _ Hl' Hdc)).
    rewrite bind_lift. cbn [and_then].
    destruct (py_last y) as [last_close|e]; [|reflexivity].
    rewrite bind_lift. cbn [and_then].
    destruct (float_value last_close) as [current|e]; [|reflexivity].
    rewrite bind_lift. cbn [and_then].
    destruct (py_last predictions) as [predicted|e]; reflexivity.
  - rewrite (bind_raise _ _ _ _ _ _ (get_column_missing _ _ _ _ Hl' Hdc)).
    reflexivity.
Qed.

Lemma finite_values_map_Finite (l : list Q) : finite_values (map Finite l) = Some l.
Proof. induction l as [|q l IH]; simpl; [reflexivity | by rewrite IH]. Qed.

Lemma finite_values_NotFinite (l : list PyFloat) :
  In NotFinite l -> finite_values l = None.
Proof.
  induction l as [|c l IH]; [contradiction|].
  intros [->|Hin]; [reflexivity|].
  destruct c as [q|]; [|reflexivity]. simpl. by rewrite IH.
Qed.

(** The fit on the day numbers and finite closes: the least-squares line
    up to the rounding of the fit, unless its arithmetic overflows. *)
Lemma LinearRegression_fit_finite rounding (n : nat) (closes : list Q) :
  (0 < n)%nat -> length closes = n ->
  LinearRegression_fit rounding (day_cells n) (map Finite closes)
  = match rounding (day_index n) closes with
    | Ok err => Ok (rounded (ols_fit (day_index n) closes) err)
    | Raise e => Raise e
    end.
Proof.
  intros Hn Hlen. unfold LinearRegression_fit.
  rewrite day_cells_length. destruct (n =? 0)%nat eqn:E; [apply Nat.eqb_eq in E; lia|].
  unfold day_cells. rewrite !finite_values_map_Finite.
  assert (Hd : length (day_index n) = n).
  { unfold day_index. rewrite length_map, np_arange_length. lia. }
  by rewrite Hd, Hlen, Nat.eqb_refl.
Qed.

(** A fit that returns a model has been given finite closes, as many as
    there are bars. *)
Lemma LinearRegression_fit_Ok rounding (n : nat) (y : list PyFloat) model :
  LinearRegression_fit rounding (day_cells n) y = Ok model ->
  exists closes, y = map Finite closes /\ length closes = n.
Proof.
  unfold LinearRegression_fit. rewrite day_cells_length.
  destruct (n =? 0)%nat; [discriminate|].
  unfold day_cells. rewrite finite_values_map_Finite.
  destruct (finite_values y) as [ys|] eqn:Ey; [|discriminate].
  destruct (length (day_index n) =? length ys)%nat eqn:E; [|discriminate].
  intros _. exists ys. split.
  - clear E. revert ys Ey. induction y as [|[q|] y IH]; intros ys Ey.
    + by injection Ey as <-.
    + simpl in Ey. destruct (finite_values y) as [ys'|]; [|discriminate].
      injection Ey as <-. simpl. f_equal. by apply IH.
    + discriminate.
  - apply Nat.eqb_eq in E. rewrite <- E.
    unfold day_index. rewrite length_map, np_arange_length. lia.
Qed.

(** What the [try] block computes once the fit has returned a model, for a
    horizon of at least one day. *)
Lemma forecast_outcome_fitted env d days (y : list PyFloat) model :
  (2 <= df_len d)%nat ->
  df_columns d !! "Close" = Some y ->
  LinearRegression_fit (fit_rounding env) (day_cells (df_len d)) y = Ok model ->
  (1 <= days)%Z ->
  exists current,
    last y = Some (Finite current)
    /\ forecast_outcome env d days
       = Ok (current, predict_at model (inject_Z (Z.of_nat (df_len d) - 1 + days))).
Proof.
  intros Hn Hc Hfit Hdays.
  destruct (LinearRegression_fit_Ok _ _ _ _ Hfit) as (closes & -> & Hlen).
  destruct (last closes) as [current|] eqn:Elast;
    [|apply last_None in Elast; subst closes; simpl in Hlen; lia].
  exists current. split; [by rewrite last_map, Elast|].
  unfold forecast_outcome. rewrite Hc. cbn [and_then]. rewrite Hfit. cbn [and_then].
  set (future := map inject_Z (np_arange _ _)).
  assert (Hf : last future = Some (inject_Z (Z.of_nat (df_len d) - 1 + days))).
  { subst future. rewrite last_map, np_arange_last by lia. simpl. do 2 f_equal. lia. }
  unfold LinearRegression_predict.
  destruct future as [|x0 future]; [discriminate|]. cbn [and_then].
  unfold py_last. rewrite !last_map, Elast, Hf. reflexivity.
Qed.

(** When the fit raises, so does the [try] block. *)
Lemma forecast_outcome_unfitted env d days (y : list PyFloat) e :
  df_columns d !! "Close" = Some y ->
  LinearRegression_fit (fit_rounding env) (day_cells (df_len d)) y = Raise e ->
  forecast_outcome env d days = Raise e.
Proof.
  intros Hc Hfit. unfold forecast_outcome. rewrite Hc. cbn [and_then].
  by rewrite Hfit.
Qed.

(** ** Least squares on exactly linear data *)



Section LinearData.

Variables a b : Q.








End LinearData.





(** ** What the screener shows *)

Section Screener.

Variable env : Provider.

Lemma categories_analyze_single_stock stock c p s :
  categories (trace_of (analyze_single_stock env stock c p s))
  = match screened_chain env stock with
    | Some _ => [recommendation c p]
    | None => []
    end.
Proof.
  unfold analyze_single_stock, screened_chain, bind, try_except, lift, emit, ui,
    st_warning, st_recommend, emit, trace_of.
  destruct (ticker_shortName env stock) as [name|e]; [|reflexivity].
  destruct (ticker_options env stock) as [[|expiry ds]|e]; [reflexivity | | reflexivity].
  simpl.
  destruct (ticker_option_chain env stock expiry) as [chain|e]; [|reflexivity].
  destruct (recommendation c p); reflexivity.
Qed.

Lemma dataframes_analyze_single_stock stock c p s :
  dataframes (trace_of (analyze_single_stock env stock c p s))
  = match screened_chain env stock with
    | Some chain =>
        [filter (fun k => strike_in_range c k = true) (calls chain);
         filter (fun k => strike_in_range c k = true) (puts chain)]
    | None => []
    end.
Proof.
  unfold analyze_single_stock, screened_chain, bind, try_except, lift, emit, ui,
    st_warning, st_recommend, emit, trace_of.
  destruct (ticker_shortName env stock) as [name|e]; [|reflexivity].
  destruct (ticker_options env stock) as [[|expiry ds]|e]; [reflexivity | | reflexivity].
  simpl.
  destruct (ticker_option_chain env stock expiry) as [chain|e]; [|reflexivity].
  destruct (recommendation c p); reflexivity.
Qed.

End Screener.

(** ** What the forecaster does to the state *)

Section KeepsState.

Context {A B : Type}.

Lemma keeps_state_ret (a : A) : keeps_state (ret a).
Proof. by intros s. Qed.

Lemma keeps_state_lift (r : PyResult A) : keeps_state (lift r).
Proof. by intros s. Qed.

Lemma keeps_state_emit (ev : Event) : keeps_state (emit ev).
Proof. by intros s. Qed.

Lemma keeps_state_bind (m : M A) (f : A -> M B) :
  keeps_state m -> (forall a, keeps_state (f a)) -> keeps_state (bind m f).
Proof.
  intros Hm Hf s. rewrite state_bind, Hm.
  destruct (result_of (m s)); [apply Hf | reflexivity].
Qed.

Lemma keeps_state_try_except (m : M A) (h : string -> M A) :
  keeps_state m -> (forall e, keeps_state (h e)) -> keeps_state (try_except m h).
Proof.
  intros Hm Hh s. rewrite state_try_except, Hm.
  destruct (result_of (m s)); [reflexivity | apply Hh].
Qed.

End KeepsState.

Lemma keeps_state_get_column l name : keeps_state (get_column l name).
Proof.
  intros s. unfold get_column, bind, deref, state_of.
  destruct (heap s !! l) as [d|]; [|reflexivity].
  by destruct (df_columns d !! name).
Qed.

#[local] Hint Resolve keeps_state_ret keeps_state_lift keeps_state_emit
  keeps_state_bind keeps_state_try_except keeps_state_get_column : run.

Lemma predict_price_movement_state env data days s :
  state_of (predict_price_movement env data days s)
  = match data with
    | None => s
    | Some l =>
        match heap s !! l with
        | None => s
        | Some d =>
            if (df_len d <? 2)%nat then s
            else store l (with_column "Days" (day_cells (df_len d)) d) s
        end
    end.
Proof.
  destruct data as [l|]; [|reflexivity].
  destruct (heap s !! l) as [d|] eqn:Hl;
    [|unfold predict_price_movement, bind, deref; by rewrite Hl].
  destruct (df_len d <? 2)%nat eqn:E.
  - unfold predict_price_movement.
    rewrite (bind_silent _ _ _ _ _ (deref_run _ _ _ Hl)). by rewrite E.
  - apply Nat.ltb_ge in E. rewrite (predict_price_movement_eval env l days s d Hl E).
    by destruct (forecast_outcome env d days) as [[c p]|e].
Qed.

(** ** What the first loop collects *)

Section Collect.

Variable env : Provider.

Lemma process_ticker_result ticker results s :
  result_of (process_ticker env ticker results s) = Ok results
  \/ exists c p,
       result_of (process_ticker env ticker results s)
       = Ok (results ++ [mkEntry ticker c p (Qabs (p - c))]).
Proof.
  unfold process_ticker. rewrite result_try_except, result_bind.
  destruct (result_of (fetch_stock_data _ _ _ _ _)) as [[l|]|e];
    [|by left | by left].
  rewrite result_bind.
  destruct (result_of (predict_price_movement env _ _ _)) as [[[c|] [p|]]|e];
    try (by left).
  right. by exists c, p.
Qed.

Lemma collect_results_movement universe results s :
  Forall movement_ok results ->
  exists r, result_of (collect_results env universe results s) = Ok r
            /\ Forall movement_ok r.
Proof.
  revert results s. induction universe as [|t rest IH]; intros results s H; simpl.
  - by exists results.
  - rewrite result_bind.
    destruct (process_ticker_result t results s) as [->|(c & p & ->)];
      apply IH; [exact H|].
    apply Forall_app. split; [exact H|]. by repeat constructor.
Qed.

Lemma replay_run msgs s : replay msgs s = (Ok tt, s, map EvUi msgs).
Proof.
  induction msgs as [|m msgs IH]; simpl; [reflexivity|].
  unfold bind, ui, emit. by rewrite IH.
Qed.

Lemma fetch_stock_data_body_no_data ticker a b s :
  no_data_for env ticker ->
  exists s1 t1,
    fetch_stock_data_body env ticker a b s = (Ok None, s1, t1)
    /\ fetch_cache s1 = fetch_cache s.
Proof.
  intros H. specialize (H a b). unfold fetch_stock_data_body.
  unfold try_except, bind, emit, lift, alloc, st_warning, ui, emit, ret.
  destruct (yf_download env _ a b) as [d|e]; [|by eexists _, _].
  rewrite H. by eexists _, _.
Qed.

Lemma fetch_stock_data_no_data ticker a b s :
  no_data_for env ticker -> cache_all_failed s ->
  result_of (fetch_stock_data env ticker a b s) = Ok None
  /\ cache_all_failed (state_of (fetch_stock_data env ticker a b s)).
Proof.
  intros Hno Hc. unfold fetch_stock_data.
  rewrite result_bind, state_bind.
  change (result_of (emit ?ev s)) with (Ok (A:=unit) tt).
  change (state_of (emit ?ev s)) with s. cbv iota.
  rewrite result_bind, state_bind.
  change (result_of (get s)) with (Ok s). change (state_of (get s)) with s.
  cbv iota.
  destruct (fetch_cache s !! (ticker, a, b)) as [[v msgs]|] eqn:E.
  - apply Hc in E as ->.
    unfold bind. rewrite replay_run. by split.
  - destruct (fetch_stock_data_body_no_data ticker a b s Hno) as (s1 & t1 & Hb & Hs1).
    unfold bind, listen. rewrite Hb. simpl. split; [reflexivity|].
    unfold state_of. simpl. intros k v msgs.
    rewrite Hs1. unfold set_fetch_cache. cbn [fetch_cache].
    destruct (decide (k = (ticker, a, b))) as [->|Hne].
    + rewrite lookup_insert_eq. by intros [= <- _].
    + rewrite lookup_insert_ne by done. apply Hc.
Qed.

Lemma predict_price_movement_cache data days s :
  fetch_cache (state_of (predict_price_movement env data days s)) = fetch_cache s.
Proof.
  rewrite predict_price_movement_state.
  destruct data as [l|]; [|reflexivity].
  destruct (heap s !! l) as [d|]; [|reflexivity].
  by destruct (df_len d <? 2)%nat.
Qed.

Lemma process_ticker_no_data ticker results s :
  no_data_for env ticker -> cache_all_failed s ->
  result_of (process_ticker env ticker results s) = Ok results
  /\ cache_all_failed (state_of (process_ticker env ticker results s)).
Proof.
  intros Hno Hc.
  destruct (fetch_stock_data_no_data ticker (PdTimestamp (2022, 1, 1)%nat)
              (PyDate (date_today env)) s Hno Hc) as [Hr Hs].
  unfold process_ticker.
  rewrite result_try_except, state_try_except, result_bind, state_bind, Hr.
  by split.
Qed.

Lemma collect_results_no_data universe results s :
  Forall (no_data_for env) universe -> cache_all_failed s ->
  result_of (collect_results env universe results s) = Ok results.
Proof.
  intros Hu. revert results s.
  induction Hu as [|t rest Ht _ IH]; intros results s Hc; simpl; [reflexivity|].
  destruct (process_ticker_no_data t results s Ht Hc) as [Hr Hs].
  rewrite result_bind, Hr. by apply IH.
Qed.

(** *** The rows of the first loop, ticker by ticker *)

Lemma bind_emit {B} (ev : Event) (f : unit -> M B) s :
  bind (emit ev) f s
  = (result_of (f tt s), state_of (f tt s), ev :: trace_of (f tt s)).
Proof. unfold bind, emit. by destruct (f tt s) as [[r s2] t2]. Qed.

Lemma same_tables_cache s s' :
  fetch_cache s' = fetch_cache s -> same_tables env s s'.
Proof. intros H ticker a b. unfold loaded_table. by rewrite H. Qed.

Lemma same_tables_insert s s1 ticker a b msgs :
  fetch_cache s !! (ticker, a, b) = None ->
  fetch_cache s1
  = <[(ticker, a, b) := (loaded_table env s ticker a b, msgs)]> (fetch_cache s) ->
  same_tables env s s1.
Proof.
  intros E H ticker' a' b'. unfold loaded_table at 1. rewrite H.
  destruct (decide ((ticker', a', b') = (ticker, a, b))) as [[= -> -> ->]|Hne].
  - by rewrite lookup_insert_eq.
  - by rewrite lookup_insert_ne.
Qed.

Lemma same_tables_trans s1 s2 s3 :
  same_tables env s1 s2 -> same_tables env s2 s3 -> same_tables env s1 s3.
Proof. intros H12 H23 ticker a b. by rewrite H23, H12. Qed.

(** The loader never raises; what it returns is a new reference to the
    table [loaded_table] tells, and the tables it hands out afterwards are
    those it would have handed out before. *)
Lemma fetch_stock_data_loaded ticker a b s :
  exists r s1 t1,
    fetch_stock_data env ticker a b s = (Ok r, s1, t1)
    /\ match r with
       | Some l =>
           exists d, heap s1 !! l = Some d /\ loaded_table env s ticker a b = Some d
       | None => loaded_table env s ticker a b = None
       end
    /\ same_tables env s s1.
Proof.
  unfold fetch_stock_data. rewrite bind_emit.
  rewrite (bind_silent get _ s s s eq_refl).
  destruct (fetch_cache s !! (ticker, a, b)) as [[v msgs]|] eqn:E.
  - unfold bind. rewrite replay_run. destruct v as [d|]; simpl.
    + eexists (Some (next_id s)), _, _. split; [reflexivity|]. split.
      * exists d. split; [apply lookup_insert_eq|]. unfold loaded_table. by rewrite E.
      * by apply same_tables_cache.
    + eexists None, _, _. split; [reflexivity|]. split.
      * unfold loaded_table. by rewrite E.
      * by apply same_tables_cache.
  - assert (Hload : loaded_table env s ticker a b
                    = match yf_download env (str_replace "." "-" ticker) a b with
                      | Ok d => if df_empty d then None else Some d
                      | Raise _ => None
                      end).
    { unfold loaded_table. by rewrite E. }
    unfold fetch_stock_data_body, bind, listen, try_except, emit, lift, alloc, get,
      modify, ret, st_warning, ui, emit.
    destruct (yf_download env _ a b) as [d|e].
    + destruct (df_empty d); simpl.
      * eexists None, _, _. split; [reflexivity|]. split; [exact Hload|].
        eapply same_tables_insert; [exact E|]. simpl. by rewrite Hload.
      * eexists (Some (next_id s)), _, _. split; [reflexivity|]. split.
        -- exists d. split; [apply lookup_insert_eq | exact Hload].
        -- eapply same_tables_insert; [exact E|]. simpl.
           by rewrite Hload, lookup_insert_eq.
    + simpl. eexists None, _, _. split; [reflexivity|]. split; [exact Hload|].
      eapply same_tables_insert; [exact E|]. simpl. by rewrite Hload.
Qed.

(** The forecaster, with the horizon of the batch run, returns the prices
    [forecast_table] tells. *)
Lemma predict_price_movement_table l s d :
  heap s !! l = Some d ->
  result_of (predict_price_movement env (Some l) 7 s)
  = Ok match forecast_table env d 7 with
       | Some (current, predicted) => (Some current, Some predicted)
       | None => (None, None)
       end.
Proof.
  intros Hl. unfold forecast_table.
  destruct (df_len d <? 2)%nat eqn:E.
  - unfold predict_price_movement.
    rewrite (bind_silent _ _ _ _ _ (deref_run _ _ _ Hl)). by rewrite E.
  - apply Nat.ltb_ge in E. rewrite (predict_price_movement_eval env l 7 s d Hl E).
    by destruct (forecast_outcome env d 7) as [[c p]|e].
Qed.

Lemma forecast_ticker_loaded ticker s :
  forecast_ticker env s ticker
  = match loaded_table env s ticker (PdTimestamp (2022, 1, 1)%nat)
            (PyDate (date_today env)) with
    | Some d =>
        match forecast_table env d 7 with
        | Some (current, predicted) =>
            Some (mkEntry ticker current predicted (Qabs (predicted - current)))
        | None => None
        end
    | None => None
    end.
Proof.
  unfold forecast_ticker.
  destruct (fetch_stock_data_loaded ticker (PdTimestamp (2022, 1, 1)%nat)
              (PyDate (date_today env)) s) as (r & s1 & t1 & -> & Hr & _).
  destruct r as [l|]; [|by rewrite Hr].
  destruct Hr as (d & Hl & ->). rewrite (predict_price_movement_table l s1 d Hl).
  by destruct (forecast_table env d 7) as [[c p]|].
Qed.

(** One iteration of the first loop appends the row of its ticker, if it
    has one, and leaves the tables of the loader as they are. *)
Lemma process_ticker_forecast ticker results s :
  result_of (process_ticker env ticker results s)
  = Ok (results ++ match forecast_ticker env s ticker with
                   | Some entry => [entry]
                   | None => []
                   end)
  /\ same_tables env s (state_of (process_ticker env ticker results s)).
Proof.
  unfold process_ticker, forecast_ticker.
  rewrite result_try_except, state_try_except, result_bind, state_bind.
  destruct (fetch_stock_data_loaded ticker (PdTimestamp (2022, 1, 1)%nat)
              (PyDate (date_today env)) s) as (r & s1 & t1 & -> & Hr & Hs).
  cbn [result_of state_of fst snd].
  destruct r as [l|]; [|cbn [result_of fst]; by rewrite app_nil_r].
  rewrite result_bind, state_bind.
  assert (Hs2 : same_tables env s (state_of (predict_price_movement env (Some l) 7 s1))).
  { eapply same_tables_trans; [exact Hs|].
    apply same_tables_cache, predict_price_movement_cache. }
  destruct (result_of (predict_price_movement env (Some l) 7 s1))
    as [[[c|] [p|]]|e] eqn:Er; cbn [result_of state_of fst snd ret];
    rewrite ?app_nil_r; (split; [reflexivity | exact Hs2]).
Qed.

Lemma valid_forecasts_same_tables universe s s' :
  same_tables env s s' -> valid_forecasts env s' universe = valid_forecasts env s universe.
Proof.
  intros H. unfold valid_forecasts.
  induction universe as [|t rest IH]; [reflexivity|]. cbn [omap list_omap].
  by rewrite IH, !forecast_ticker_loaded, H.
Qed.

(** The first loop collects the rows of the tickers with a valid forecast,
    in the order of the universe. *)
Lemma collect_results_forecasts universe results s :
  result_of (collect_results env universe results s)
  = Ok (results ++ valid_forecasts env s universe).
Proof.
  revert results s. induction universe as [|t rest IH]; intros results s.
  - simpl. by rewrite app_nil_r.
  - cbn [collect_results]. rewrite result_bind.
    destruct (process_ticker_forecast t results s) as [-> Hs].
    rewrite IH, (valid_forecasts_same_tables rest s _ Hs), <- app_assoc.
    unfold valid_forecasts. cbn [omap list_omap].
    by destruct (forecast_ticker env s t).
Qed.

(** A table the forecaster gets no prices out of. *)
Lemma no_forecast_from_table d :
  no_forecast_from env d -> forecast_table env d 7 = None.
Proof.
  unfold forecast_table. intros [H|[H|(y & e & Hc & Hfit)]].
  - apply Nat.ltb_lt in H. by rewrite H.
  - destruct (df_len d <? 2)%nat; [reflexivity|].
    unfold forecast_outcome. by rewrite H.
  - destruct (df_len d <? 2)%nat; [reflexivity|].
    by rewrite (forecast_outcome_unfitted env d 7 y e Hc Hfit).
Qed.

Lemma forecast_ticker_none ticker s :
  no_forecast_for env ticker -> cache_without_forecast env s ->
  forecast_ticker env s ticker = None.
Proof.
  intros Hno Hc. rewrite forecast_ticker_loaded. unfold loaded_table.
  destruct (fetch_cache s !! _) as [[[d|] msgs]|] eqn:E.
  - by rewrite (no_forecast_from_table d (Hc _ _ _ E)).
  - reflexivity.
  - specialize (Hno (PdTimestamp (2022, 1, 1)%nat) (PyDate (date_today env))).
    destruct (yf_download env _ _ _) as [d|e]; [|reflexivity].
    destruct Hno as [->|Hno]; [reflexivity|].
    destruct (df_empty d); [reflexivity|].
    by rewrite (no_forecast_from_table d Hno).
Qed.

Lemma valid_forecasts_none universe s :
  Forall (no_forecast_for env) universe -> cache_without_forecast env s ->
  valid_forecasts env s universe = [].
Proof.
  intros Hu Hc. unfold valid_forecasts.
  induction Hu as [|t rest Ht _ IH]; [reflexivity|]. cbn [omap list_omap].
  by rewrite (forecast_ticker_none t s Ht Hc), IH.
Qed.

End Collect.

(** * The claims *)

(** ** C1: the recommendation thresholds *)

(** Claim C1, as amended: for every current and predicted price, a category
    shown by the screener is BUY_CALLS exactly when
    [predicted > current * 1.05], BUY_PUTS exactly when
    [predicted < current * 0.95] and not [predicted > current * 1.05], and HOLD
    exactly when neither test holds. For a current price that is not
    negative the two tests exclude each other: the category is BUY_PUTS
    exactly when [predicted < current * 0.95], and it is HOLD at
    [predicted = current * 1.05] and at [predicted = current * 0.95]. *)
Theorem recommendation_category_thresholds
    (env : Provider) (stock : string) (c p : Q) (s : State) (cat : Category) :
  In cat (categories (trace_of (analyze_single_stock env stock c p s))) ->
  (cat = BUY_CALLS <-> c * 1.05 < p)
  /\ (cat = BUY_PUTS <-> p < c * 0.95 /\ ~ c * 1.05 < p)
  /\ (cat = HOLD <-> ~ c * 1.05 < p /\ ~ p < c * 0.95)
  /\ (0 <= c ->
      (cat = BUY_PUTS <-> p < c * 0.95)
      /\ (p == c * 1.05 -> cat = HOLD)
      /\ (p == c * 0.95 -> cat = HOLD)).
Proof.
  intros Hin. rewrite categories_analyze_single_stock in Hin.
  destruct (screened_chain env stock); [|contradiction].
  destruct Hin as [<-|[]].
  rewrite recommendation_BUY_CALLS, recommendation_BUY_PUTS, recommendation_HOLD.
  repeat split; intros; lra.
Qed.

Lemma recommendation_category_thresholds_witness :
  (BUY_CALLS = BUY_CALLS <-> 104 * 1.05 < 111)
  /\ (BUY_CALLS = BUY_PUTS <-> 111 < 104 * 0.95).
Proof.
  assert (H0 : 0 <= 104) by (unfold Qle; simpl; lia).
  assert (H1 : In BUY_CALLS
            (categories (trace_of (analyze_single_stock Demo.provider "AAPL" 104 111
                                     Demo.state0))))
    by (vm_compute; left; reflexivity).
  destruct (recommendation_category_thresholds Demo.provider "AAPL" 104 111
              Demo.state0 BUY_CALLS H1) as (Hcalls & _ & _ & Hpos).
  split; [exact Hcalls | exact (proj1 (Hpos H0))].
Defined.

(** Claim C1, as stated, fails for a negative current price: with
    current = predicted = -100 both tests hold, [-100 < -100 * 0.95] but the
    screener shows BUY_CALLS; and at predicted = current * 1.05 = -105 it
    shows BUY_PUTS, not HOLD. *)
Lemma recommendation_negative_price_counterexample :
  (-100 < -100 * 0.95
   /\ categories (trace_of (analyze_single_stock Demo.provider "AAPL" (-100) (-100)
                              Demo.state0))
      = [BUY_CALLS])
  /\ (-105 == -100 * 1.05
      /\ categories (trace_of (analyze_single_stock Demo.provider "AAPL" (-100) (-105)
                                 Demo.state0))
         = [BUY_PUTS]).
Proof.
  repeat split; vm_compute; reflexivity.
Qed.

(** ** C5: the strike filter *)

(** Claim C5: every option table the screener shows is one side (calls or
    puts) of the retrieved chain, cut down to exactly the contracts whose
    strike lies in [0.95 * current, 1.05 * current], both bounds included. *)
Theorem option_filter_strike_range
    (env : Provider) (stock : string) (c p : Q) (s : State)
    (rows : list OptionContract) :
  In rows (dataframes (trace_of (analyze_single_stock env stock c p s))) ->
  exists chain side,
    screened_chain env stock = Some chain
    /\ (side = calls chain \/ side = puts chain)
    /\ forall k, In k rows
                 <-> In k side /\ 0.95 * c <= strike k /\ strike k <= 1.05 * c.
Proof.
  rewrite dataframes_analyze_single_stock.
  destruct (screened_chain env stock) as [chain|]; [|contradiction].
  intros [<-|[<-|[]]].
  - exists chain, (calls chain). split; [reflexivity|]. split; [by left|].
    intros k. apply filter_strike_spec.
  - exists chain, (puts chain). split; [reflexivity|]. split; [by right|].
    intros k. apply filter_strike_spec.
Qed.

Lemma option_filter_strike_range_witness :
  exists chain side,
    screened_chain Demo.provider "AAPL" = Some chain
    /\ (side = calls chain \/ side = puts chain)
    /\ forall k,
         In k [mkOptionContract "C98.8" 98.8 1 2; mkOptionContract "C100" 100 1 2;
               mkOptionContract "C109.2" 109.2 1 2]
         <-> In k side /\ 0.95 * 104 <= strike k /\ strike k <= 1.05 * 104.
Proof.
  apply (option_filter_strike_range Demo.provider "AAPL" 104 111 Demo.state0).
  vm_compute. left. reflexivity.
Defined.

(** ** C8: ticker normalisation *)

(** Claim C8: whenever the loader turns to the market-data provider (that
    is, on a cache miss), it asks once, for the ticker with every "."
    replaced by "-" and with the dates it was given; the replacement keeps
    the length and every other character, and maps "BRK.B" to "BRK-B". *)
Theorem loader_normalizes_ticker
    (env : Provider) (ticker : string) (a b : DateArg) (s : State) :
  downloads (trace_of (fetch_stock_data env ticker a b s))
  = match fetch_cache s !! (ticker, a, b) with
    | Some _ => []
    | None => [(str_replace "." "-" ticker, a, b)]
    end
  /\ String.length (str_replace "." "-" ticker) = String.length ticker
  /\ (forall i,
        String.get i (str_replace "." "-" ticker)
        = option_map (fun ch => if Ascii.eqb ch "." then "-"%char else ch)
            (String.get i ticker))
  /\ str_replace "." "-" "BRK.B" = "BRK-B"%string.
Proof.
  split; [apply downloads_fetch_stock_data|].
  split; [apply str_replace_length|].
  split; [intros i; apply str_replace_get | reflexivity].
Qed.

(** ** C2: extrapolation of a linear series *)




(** It also fails, for every horizon, on a linear series on which the fit
    overflows: on three closes of 10^308 each (a = 0) the forecaster returns
    no prices in the demo world. *)
Example forecast_overflow_scenario :
  predict_price_movement Demo.provider (Some 0%nat) 7 (Demo.series_state Demo.huge)
  = (Ok (None, None),
     store 0 (with_column "Days" (day_cells 3) (Demo.bars Demo.huge))
       (Demo.series_state Demo.huge),
     [EvUi (StWarning (ErrorPrediction "array must not contain infs or NaNs"))]).
Proof. vm_compute. reflexivity. Qed.

(** The scenario of the specification: five bars 100 .. 104 and a horizon
    of 7 days give current price 104 and predicted price 111, hence
    BUY_CALLS. *)
Example forecast_scenario :
  exists predicted,
    result_of (predict_price_movement Demo.provider (Some 0%nat) 7
                 (Demo.series_state [100; 101; 102; 103; 104]))
    = Ok (Some 104, Some predicted)
    /\ predicted == 111
    /\ recommendation 104 predicted = BUY_CALLS.
Proof.
  eexists. split; [vm_compute; reflexivity|]. split; reflexivity.
Qed.

(** The same scenario with a fit that is off by 1/1000 in the slope and by
    -1/100 in the intercept: the predicted price is off by
    11/1000 - 1/100. *)
Example forecast_scenario_rounded :
  exists predicted,
    result_of (predict_price_movement DemoRounded.provider (Some 0%nat) 7
                 (Demo.series_state [100; 101; 102; 103; 104]))
    = Ok (Some 104, Some predicted)
    /\ predicted == 111 + (11 # 1000) - (1 # 100).
Proof.
  eexists. split; [vm_compute; reflexivity|]. reflexivity.
Qed.

(** ** C3: the current price *)

(** Claim C3, as amended: take a series with at least 2 bars and a column
    "Close", and the default horizon of 7 days (the one of every call in
    the script). When the fit succeeds on the closes, the forecaster returns
    a pair of prices, and the current price is the close of the last bar;
    when the fit raises, it returns (None, None). The fit raises whenever a
    close is not finite (NaN, an infinity). *)
Theorem forecast_current_price_is_last_close
    (env : Provider) (s : State) (l : nat) (d : DataFrame) (y : list PyFloat) :
  heap s !! l = Some d ->
  (2 <= df_len d)%nat ->
  df_columns d !! "Close" = Some y ->
  match LinearRegression_fit (fit_rounding env) (day_cells (df_len d)) y with
  | Ok _ =>
      exists current predicted,
        result_of (predict_price_movement env (Some l) 7 s)
        = Ok (Some current, Some predicted)
        /\ y !! (df_len d - 1)%nat = Some (Finite current)
  | Raise _ =>
      result_of (predict_price_movement env (Some l) 7 s) = Ok (None, None)
  end
  /\ (In NotFinite y ->
      result_of (predict_price_movement env (Some l) 7 s) = Ok (None, None)).
Proof.
  intros Hl Hn Hc.
  rewrite (predict_price_movement_eval env l 7 s d Hl Hn).
  assert (Hraise : forall e,
            LinearRegression_fit (fit_rounding env) (day_cells (df_len d)) y = Raise e ->
            result_of
              match forecast_outcome env d 7 with
              | Ok (current, predicted) =>
                  (Ok (Some current, Some predicted),
                   store l (with_column "Days" (day_cells (df_len d)) d) s, [])
              | Raise e0 =>
                  (Ok (None, None),
                   store l (with_column "Days" (day_cells (df_len d)) d) s,
                   [EvUi (StWarning (ErrorPrediction e0))])
              end = Ok (None, None)).
  { intros e He. by rewrite (forecast_outcome_unfitted env d 7 y e Hc He). }
  split.
  - destruct (LinearRegression_fit _ _ y) as [model|e] eqn:Hfit; [|by apply (Hraise e)].
    destruct (forecast_outcome_fitted env d 7 y model Hn Hc Hfit ltac:(lia))
      as (current & Hlast & ->).
    eexists current, _. split; [reflexivity|].
    destruct (LinearRegression_fit_Ok _ _ _ _ Hfit) as (closes & -> & Hlen).
    rewrite last_lookup, length_map in Hlast. rewrite <- Hlen.
    by replace (length closes - 1)%nat with (Nat.pred (length closes)) by lia.
  - intros Hin. apply (Hraise "Input contains NaN or infinity").
    unfold LinearRegression_fit. rewrite day_cells_length.
    destruct (df_len d =? 0)%nat eqn:E; [apply Nat.eqb_eq in E; lia|].
    unfold day_cells. by rewrite finite_values_map_Finite, (finite_values_NotFinite y Hin).
Qed.

Lemma forecast_current_price_is_last_close_witness :
  exists current predicted,
    result_of (predict_price_movement Demo.provider (Some 0%nat) 7
                 (Demo.series_state [100; 97; 94; 91]))
    = Ok (Some current, Some predicted)
    /\ map Finite [100; 97; 94; 91] !! (4 - 1)%nat = Some (Finite current).
Proof.
  assert (H1 : heap (Demo.series_state [100; 97; 94; 91]) !! 0%nat
               = Some (Demo.bars [100; 97; 94; 91])) by reflexivity.
  assert (H2 : (2 <= df_len (Demo.bars [100; 97; 94; 91]%Q))%nat) by (vm_compute; lia).
  assert (H3 : df_columns (Demo.bars [100; 97; 94; 91]) !! "Close"
               = Some (map Finite [100; 97; 94; 91])) by reflexivity.
  exact (proj1 (forecast_current_price_is_last_close Demo.provider
                  (Demo.series_state [100; 97; 94; 91]) 0%nat
                  (Demo.bars [100; 97; 94; 91]) (map Finite [100; 97; 94; 91])
                  H1 H2 H3)).
Defined.

(** Claim C3, as stated, fails on a series with a close that is not a
    number: on the three bars 100, NaN, 102 the fit raises, and the
    forecaster returns (None, None) after its warning. *)
Lemma forecast_gapped_series_counterexample :
  (2 <= df_len (Demo.table Demo.gapped))%nat
  /\ predict_price_movement Demo.provider (Some 0%nat) 7 (Demo.table_state Demo.gapped)
     = (Ok (None, None),
        store 0 (with_column "Days" (day_cells 3) (Demo.table Demo.gapped))
          (Demo.table_state Demo.gapped),
        [EvUi (StWarning (ErrorPrediction "Input contains NaN or infinity"))]).
Proof. split; [vm_compute; lia | reflexivity]. Qed.

(** ** C4: series that are too short *)

(** Claim C4: for no series at all, or a series of 0 or 1 bars, the
    forecaster returns (None, None) and does nothing else: the state is as
    before and nothing is shown. *)
Theorem forecast_short_series_is_null
    (env : Provider) (data : option nat) (days : Z) (s : State) :
  (data = None
   \/ exists l d, data = Some l /\ heap s !! l = Some d /\ (df_len d < 2)%nat) ->
  predict_price_movement env data days s = (Ok (None, None), s, []).
Proof.
  intros [->|(l & d & -> & Hl & Hn)]; [reflexivity|].
  unfold predict_price_movement.
  rewrite (bind_silent _ _ _ _ _ (deref_run _ _ _ Hl)).
  apply Nat.ltb_lt in Hn. by rewrite Hn.
Qed.

Lemma forecast_short_series_is_null_witness :
  predict_price_movement Demo.provider (Some 0%nat) 7 (Demo.series_state [7])
  = (Ok (None, None), Demo.series_state [7], []).
Proof.
  apply forecast_short_series_is_null.
  right. exists 0%nat, (Demo.bars [7]).
  split; [reflexivity|]. split; [reflexivity|]. vm_compute. lia.
Defined.

(** ** C9: the forecaster and the series it is given *)

(** Claim C9, as amended: the forecaster changes nothing but the series it
    is given, and that series only by the column "Days": the row index and
    every column under another name stay as they were; a series with at
    least 2 bars gets the column "Days" = 0, 1, ..., len - 1 added (or
    overwritten) in place, a series with fewer than 2 bars is left
    unchanged. *)
Theorem forecast_frame (env : Provider) (data : option nat) (days : Z) (s : State) :
  let s' := state_of (predict_price_movement env data days s) in
  fetch_cache s' = fetch_cache s
  /\ session_selected_stock s' = session_selected_stock s
  /\ session_stock_data s' = session_stock_data s
  /\ forall l d,
       heap s !! l = Some d ->
       exists d',
         heap s' !! l = Some d'
         /\ df_index d' = df_index d
         /\ (forall name, name <> "Days"%string ->
                          df_columns d' !! name = df_columns d !! name)
         /\ (data <> Some l \/ (df_len d < 2)%nat -> d' = d)
         /\ (data = Some l -> (2 <= df_len d)%nat ->
             df_columns d' !! "Days" = Some (map Finite (day_index (df_len d)))).
Proof.
  intros s'. subst s'. rewrite predict_price_movement_state.
  destruct data as [l0|].
  2:{ repeat split; try reflexivity. intros l d Hl. exists d.
      repeat split; try done. }
  destruct (heap s !! l0) as [d0|] eqn:Hl0.
  2:{ repeat split; try reflexivity. intros l d Hl. exists d.
      repeat split; try done. intros [= ->]. congruence. }
  destruct (df_len d0 <? 2)%nat eqn:E.
  { apply Nat.ltb_lt in E. repeat split; try reflexivity. intros l d Hl. exists d.
    repeat split; try done. intros [= ->]. assert (d = d0) by congruence. subst. lia. }
  apply Nat.ltb_ge in E. repeat split; try reflexivity.
  intros l d Hl. destruct (decide (l = l0)) as [->|Hne].
  - assert (d = d0) by congruence. subst d0.
    exists (with_column "Days" (day_cells (df_len d)) d).
    split; [apply lookup_insert_eq|]. split; [reflexivity|].
    split; [intros name Hname; by apply lookup_insert_ne|].
    split; [intros [H|H]; [congruence | lia]|].
    intros _ _. apply lookup_insert_eq.
  - exists d. split; [unfold store; simpl; by rewrite lookup_insert_ne|].
    repeat split; try done. intros [= ->]. congruence.
Qed.

Lemma forecast_frame_witness :
  exists d',
    heap (state_of (predict_price_movement Demo.provider (Some 0%nat) 7
                      (Demo.series_state [100; 101; 102; 103; 104]))) !! 0%nat
    = Some d'
    /\ df_index d' = df_index (Demo.bars [100; 101; 102; 103; 104])
    /\ df_columns d' !! "Close" = Some (map Finite [100; 101; 102; 103; 104])
    /\ df_columns d' !! "Days" = Some (map Finite (day_index 5)).
Proof.
  destruct (forecast_frame Demo.provider (Some 0%nat) 7
              (Demo.series_state [100; 101; 102; 103; 104]))
    as (_ & _ & _ & H).
  destruct (H 0%nat (Demo.bars [100; 101; 102; 103; 104]) eq_refl)
    as (d' & H1 & H2 & H3 & _ & H5).
  exists d'. split; [exact H1|]. split; [exact H2|]. split.
  - rewrite (H3 "Close"%string) by discriminate. reflexivity.
  - apply H5; [reflexivity | vm_compute; lia].
Defined.

(** Claim C9, as stated, fails: after a forecast the series 100, 101, 102,
    103, 104 that was passed in has a column it did not have before. *)
Lemma forecast_adds_days_column_counterexample :
  let s := Demo.series_state [100; 101; 102; 103; 104] in
  let s' := state_of (predict_price_movement Demo.provider (Some 0%nat) 7 s) in
  (heap s !! 0%nat) ≫= (fun d => df_columns d !! "Days") = None
  /\ (heap s' !! 0%nat) ≫= (fun d => df_columns d !! "Days")
     = Some (map Finite [0; 1; 2; 3; 4])
  /\ heap s' !! 0%nat <> heap s !! 0%nat.
Proof.
  split; [reflexivity|]. split; [reflexivity|].
  intros H.
  apply (f_equal (fun o => o ≫= (fun d => df_columns d !! "Days"))) in H.
  discriminate H.
Qed.

(** The series kept in the session is the very object the forecaster was
    given: after a single-ticker analysis it carries the column "Days". *)
Example session_series_has_days :
  let s' := state_of (main Demo.provider
                        (mkUiInput "AAPL" (2022, 1, 1)%nat (2024, 6, 3)%nat true false)
                        Demo.state0) in
  (session_stock_data s' ≫= (fun l => heap s' !! l))
    ≫= (fun d => df_columns d !! "Days")
  = Some (map Finite [0; 1; 2; 3; 4])
  /\ fst <$> (fetch_cache s' !! ("AAPL"%string, PyDate (2022, 1, 1)%nat,
                                 PyDate (2024, 6, 3)%nat))
     = Some (Some (Demo.bars [100; 101; 102; 103; 104])).
Proof. split; vm_compute; reflexivity. Qed.

(** ** C6: the ranking *)

(** Claim C6: the first loop always ends with a list of rows, and these are
    the rows of the tickers of the universe with a valid forecast, in the
    order of the universe: a ticker has a row exactly when the loader
    returns a table for it and the forecaster returns prices for that table,
    and the row holds these two prices and
    movement = |predicted - current|. Of the valid rows the orchestrator
    selects min(5, number of valid rows), sorted by movement in descending
    order and all ranking at least as high as the rows left out; and it runs
    the screener for the selected rows, in that order, and for nothing
    else. *)
Theorem batch_ranking_top_five (env : Provider) (universe : list string) (s : State) :
  exists results s1 t1,
    collect_results env universe [] s = (Ok results, s1, t1)
    /\ results = valid_forecasts env s universe
    /\ Forall movement_ok results
    /\ let valid_results := filter (fun entry => valid_entry entry = true) results in
       let selected := sorted_results results in
       valid_results = results
       /\ length selected = Nat.min 5 (length valid_results)
       /\ StronglySorted ranks_before selected
       /\ (exists rest,
             Permutation valid_results (selected ++ rest)
             /\ forall x y, In x selected -> In y rest -> ranks_before x y)
       /\ analyze_calls (trace_of (find_top_recommendations_over env universe s))
          = map screener_args selected.
Proof.
  destruct (find_top_recommendations_over_run env universe s)
    as (results & s1 & t1 & Hrun & Htrace).
  exists results, s1, t1. split; [exact Hrun|]. split.
  { pose proof (collect_results_forecasts env universe [] s) as H.
    rewrite Hrun in H. by injection H as ->. }
  split.
  { destruct (collect_results_movement env universe [] s) as (r & Hr & HF);
      [constructor|].
    rewrite Hrun in Hr. by injection Hr as <-. }
  cbv zeta.
  assert (Hsel : sorted_results results
                 = take 5 (sorted_desc (filter (fun entry => valid_entry entry = true)
                                          results))).
  { unfold sorted_results. by destruct (filter _ results). }
  split; [|split; [|split; [|split]]].
  - clear. induction results as [|x results IH]; [reflexivity|].
    rewrite filter_cons_True by reflexivity. by rewrite IH.
  - rewrite Hsel, length_take, sorted_desc_length. reflexivity.
  - rewrite Hsel. set (l := sorted_desc _).
    pose proof (sorted_desc_sorted (filter (fun entry => valid_entry entry = true)
                                      results)) as Hs.
    fold l in Hs. rewrite <- (take_drop 5 l) in Hs.
    by apply StronglySorted_app_1_l in Hs.
  - rewrite Hsel. set (v := filter _ results).
    exists (drop 5 (sorted_desc v)). split.
    + by rewrite take_drop, sorted_desc_perm.
    + apply sorted_take_drop, sorted_desc_sorted.
  - rewrite Htrace. unfold analyze_calls. cbn [omap list_omap]. rewrite omap_app.
    assert (Ht1 : omap (fun ev => match ev with
                                  | EvCallAnalyze k c p => Some (k, c, p)
                                  | _ => None
                                  end) t1 = []).
    { replace t1 with (trace_of (collect_results env universe [] s))
        by (by rewrite Hrun).
      apply omap_all_events. by apply all_events_collect_results. }
    rewrite Ht1. cbn [app].
    unfold sorted_results.
    destruct (filter _ results) as [|x v]; [reflexivity|].
    apply analyze_calls_show_entries.
Qed.

(** On the demo world three of the eight tickers have a valid forecast, and
    the rows are theirs, in the order of the universe. *)
Example batch_rows_demo :
  map e_ticker
    (valid_forecasts Demo.provider Demo.state0
       ["AAPL"; "BRK.B"; "INTC"; "MSFT"; "TSLA"; "NVDA"; "AMD"; "ZZZ"])
  = ["AAPL"; "BRK.B"; "MSFT"]%string.
Proof. vm_compute. reflexivity. Qed.

(** ** C7: no valid forecast at all *)

(** Claim C7: the orchestrator never lets an exception escape; when its
    first loop has collected no row it shows the warning "No valid
    recommendations could be generated." as its last output and runs the
    screener for nothing. The first loop collects no row when the universe
    is empty, and whenever every ticker of the universe fails to load or to
    forecast: the request to the provider fails, or it comes back empty, or
    with a series of fewer than 2 bars, or without a column "Close", or with
    closes on which the fit raises (a close that is not finite, an
    overflow); the same must hold of the tables the cache remembers. *)
Theorem batch_without_valid_forecasts
    (env : Provider) (universe : list string) (s : State) :
  result_of (find_top_recommendations_over env universe s) = Ok tt
  /\ (result_of (collect_results env universe [] s) = Ok [] ->
      trace_of (find_top_recommendations_over env universe s)
      = EvUi (StSubheader "Top Recommendations Across Top 50 Stocks")
        :: trace_of (collect_results env universe [] s)
        ++ [EvUi (StWarning NoValidRecommendations)]
      /\ analyze_calls (trace_of (find_top_recommendations_over env universe s)) = [])
  /\ (universe = [] -> result_of (collect_results env universe [] s) = Ok [])
  /\ (Forall (no_data_for env) universe -> cache_all_failed s ->
      result_of (collect_results env universe [] s) = Ok [])
  /\ (Forall (no_forecast_for env) universe -> cache_without_forecast env s ->
      result_of (collect_results env universe [] s) = Ok []).
Proof.
  split.
  { destruct (never_raises_find_top_recommendations_over env universe s) as [[] H].
    exact H. }
  split; [|split; [|split]].
  - intros Hres.
    destruct (find_top_recommendations_over_run env universe s)
      as (results & s1 & t1 & Hrun & Htrace).
    rewrite Hrun in Hres. injection Hres as ->.
    rewrite Hrun. cbn [trace_of snd]. simpl in Htrace.
    split; [exact Htrace|].
    rewrite Htrace. unfold analyze_calls. cbn [omap list_omap]. rewrite omap_app.
    replace t1 with (trace_of (collect_results env universe [] s))
      by (by rewrite Hrun).
    rewrite omap_all_events by (by apply all_events_collect_results).
    reflexivity.
  - by intros ->.
  - intros Hu Hc. by apply collect_results_no_data.
  - intros Hu Hc.
    by rewrite collect_results_forecasts, (valid_forecasts_none env universe s Hu Hc).
Qed.

Lemma batch_without_valid_forecasts_witness :
  trace_of (find_top_recommendations_over Demo.provider
              ["TSLA"; "NVDA"; "INTC"; "AMD"; "ZZZ"] Demo.state0)
  = EvUi (StSubheader "Top Recommendations Across Top 50 Stocks")
    :: trace_of (collect_results Demo.provider
                   ["TSLA"; "NVDA"; "INTC"; "AMD"; "ZZZ"] [] Demo.state0)
    ++ [EvUi (StWarning NoValidRecommendations)]
  /\ analyze_calls
       (trace_of (find_top_recommendations_over Demo.provider
                    ["TSLA"; "NVDA"; "INTC"; "AMD"; "ZZZ"] Demo.state0))
     = [].
Proof.
  destruct (batch_without_valid_forecasts Demo.provider
              ["TSLA"; "NVDA"; "INTC"; "AMD"; "ZZZ"] Demo.state0)
    as (_ & H & _ & _ & Hno).
  apply H. apply Hno.
  - apply Forall_cons. split; [intros a b; left; reflexivity|].
    apply Forall_cons. split; [intros a b; right; left; vm_compute; lia|].
    apply Forall_cons. split.
    { intros a b. right. right. right.
      exists Demo.gapped, "Input contains NaN or infinity"%string.
      split; reflexivity. }
    apply Forall_cons. split.
    { intros a b. right. right. right.
      exists (map Finite Demo.huge), "array must not contain infs or NaNs"%string.
      split; [reflexivity | vm_compute; reflexivity]. }
    apply Forall_cons. split; [intros a b; exact I|]. apply Forall_nil_2.
  - intros k d msgs Hk. vm_compute in Hk. discriminate Hk.
Defined.

(** On the demo world the ranking is MSFT (movement 21), AAPL (7), BRK.B (0),
    and the screener is run in that order. *)
Example batch_ranking_demo :
  map fst (map fst (analyze_calls
     (trace_of (find_top_recommendations_over Demo.provider
                  ["AAPL"; "BRK.B"; "MSFT"; "TSLA"; "NVDA"; "ZZZ"] Demo.state0))))
  = ["MSFT"; "AAPL"; "BRK-B"]%string.
Proof. vm_compute. reflexivity. Qed.

(** ** C10: the dates of the batch run *)

(** Claim C10: the batch orchestrator calls the loader once per ticker of
    the universe, in order, each time with start 2022-01-01 and end today;
    a run of the script with "Analyze All" selected calls the loader with
    these dates only and is the same whatever the date widgets hold; a
    single-ticker analysis calls the loader with the dates of the widgets. *)
Theorem batch_fetch_dates_fixed (env : Provider) (inp : UiInput) (s : State) :
  fetch_calls (trace_of (find_top_recommendations env s))
  = map (batch_fetch_args env) top_50_stocks
  /\ (in_selected_stock inp = "Analyze All"%string ->
      Forall (fun call => call.1.2 = PdTimestamp (2022, 1, 1)%nat
                          /\ call.2 = PyDate (date_today env))
             (fetch_calls (trace_of (main env inp s)))
      /\ forall start_date end_date,
           main env (with_dates inp start_date end_date) s = main env inp s)
  /\ (in_selected_stock inp <> "Analyze All"%string ->
      in_analyze_clicked inp = true ->
      fetch_calls (trace_of (tab_stock_analysis env inp s))
      = [(in_selected_stock inp, PyDate (in_start_date inp), PyDate (in_end_date inp))]).
Proof.
  split; [|split].
  - unfold find_top_recommendations.
    destruct (find_top_recommendations_over_run env top_50_stocks s)
      as (results & s1 & t1 & Hrun & ->).
    unfold fetch_calls at 1. cbn [omap list_omap]. rewrite omap_app.
    replace t1 with (trace_of (collect_results env top_50_stocks [] s))
      by (by rewrite Hrun).
    fold (fetch_calls (trace_of (collect_results env top_50_stocks [] s))).
    rewrite fetch_calls_collect_results.
    rewrite <- (app_nil_r (map _ top_50_stocks)) at 2. f_equal.
    destruct (filter _ results) as [|x v]; [reflexivity|].
    apply omap_all_events. by apply all_events_show_entries.
  - intros Hsel. split.
    + pose proof (all_events_main_analyze_all env
        (fun ev => match ev with
                   | EvCallFetch k a b =>
                       a = PdTimestamp (2022, 1, 1)%nat /\ b = PyDate (date_today env)
                   | _ => True
                   end) inp Hsel) as H.
      specialize (H ltac:(done) ltac:(done) ltac:(done) ltac:(done) ltac:(done) s).
      induction H as [|ev t Hev _ IH]; [constructor|].
      destruct ev; simpl; try exact IH. by constructor.
    + intros start_date end_date. unfold main, tab_stock_analysis, with_dates.
      simpl. rewrite Hsel. reflexivity.
  - intros Hsel Hclick. unfold tab_stock_analysis. rewrite Hclick.
    apply String.eqb_neq in Hsel. rewrite Hsel.
    rewrite trace_bind.
    change (result_of (ui ?m s)) with (Ok (A:=unit) tt).
    change (state_of (ui ?m s)) with s. cbv iota.
    rewrite trace_bind.
    set (s0 := state_of (modify _ s)).
    change (result_of (modify ?f s)) with (Ok (A:=unit) tt). cbv iota.
    rewrite trace_bind.
    destruct (trace_fetch_stock_data env
                (fun ev => match ev with EvCallFetch _ _ _ => False | _ => True end)
                (in_selected_stock inp) (PyDate (in_start_date inp))
                (PyDate (in_end_date inp)) s0) as (t & -> & Ht); [done | done |].
    change (trace_of (ui ?m s)) with [EvUi m].
    change (trace_of (modify ?f s)) with (@nil Event).
    unfold fetch_calls. rewrite !omap_app. cbn [omap list_omap app].
    rewrite (omap_silent _ t) by (eapply Forall_impl; [exact Ht|]; by intros []).
    cbn [app]. f_equal.
    destruct (result_of (fetch_stock_data _ _ _ _ _)) as [[l|]|e];
      [|reflexivity | reflexivity].
    apply (omap_all_events _ (bind (modify _) _)).
    apply all_events_bind; [auto with run|]. intros _.
    apply all_events_bind; [by apply all_events_predict_price_movement|].
    intros [[c|] [p|]]; auto with run.
    do 3 (apply all_events_bind; [auto with run|]; intros _).
    by apply all_events_analyze_single_stock.
Qed.

Lemma batch_fetch_dates_fixed_witness :
  main Demo.provider
    (with_dates (mkUiInput "Analyze All" (2022, 1, 1)%nat (2024, 6, 3)%nat true false)
       (1999, 12, 31)%nat (2000, 1, 1)%nat) Demo.state0
  = main Demo.provider
      (mkUiInput "Analyze All" (2022, 1, 1)%nat (2024, 6, 3)%nat true false) Demo.state0
  /\ fetch_calls
       (trace_of (tab_stock_analysis Demo.provider
                    (mkUiInput "AAPL" (2023, 5, 1)%nat (2024, 6, 3)%nat true false)
                    Demo.state0))
     = [("AAPL"%string, PyDate (2023, 5, 1)%nat, PyDate (2024, 6, 3)%nat)].
Proof.
  split.
  - destruct (batch_fetch_dates_fixed Demo.provider
                (mkUiInput "Analyze All" (2022, 1, 1)%nat (2024, 6, 3)%nat true false)
                Demo.state0) as (_ & H & _).
    apply (H eq_refl).
  - destruct (batch_fetch_dates_fixed Demo.provider
                (mkUiInput "AAPL" (2023, 5, 1)%nat (2024, 6, 3)%nat true false)
                Demo.state0) as (_ & _ & H).
    apply H; [discriminate | reflexivity].
Defined.

(** * Further properties *)

(** ** Relations every step preserves *)

Section Preserves.

Variable R : State -> State -> Prop.
Context `{!PreOrder R}.

Lemma preserves_ret {A} (a : A) : preserves R (ret a).
Proof. intros s. reflexivity. Qed.

Lemma preserves_lift {A} (r : PyResult A) : preserves R (lift r).
Proof. intros s. reflexivity. Qed.

Lemma preserves_raise {A} (e : string) : preserves R (@raise A e).
Proof. intros s. reflexivity. Qed.

Lemma preserves_emit (ev : Event) : preserves R (emit ev).
Proof. intros s. reflexivity. Qed.

Lemma preserves_get : preserves R get.
Proof. intros s. reflexivity. Qed.

Lemma preserves_bind {A B} (m : M A) (f : A -> M B) :
  preserves R m -> (forall a, preserves R (f a)) -> preserves R (bind m f).
Proof.
  intros Hm Hf s. rewrite state_bind.
  destruct (result_of (m s)) as [a|e]; [|apply Hm].
  transitivity (state_of (m s)); [apply Hm | apply Hf].
Qed.

Lemma preserves_try_except {A} (m : M A) (h : string -> M A) :
  preserves R m -> (forall e, preserves R (h e)) -> preserves R (try_except m h).
Proof.
  intros Hm Hh s. rewrite state_try_except.
  destruct (result_of (m s)) as [a|e]; [apply Hm|].
  transitivity (state_of (m s)); [apply Hm | apply Hh].
Qed.

Lemma preserves_listen {A} (m : M A) : preserves R m -> preserves R (listen m).
Proof.
  intros Hm s. specialize (Hm s). unfold listen, state_of in *.
  by destruct (m s) as [[[a|e] s1] t1].
Qed.

Lemma preserves_modify (f : State -> State) :
  (forall s, R s (f s)) -> preserves R (modify f).
Proof. intros H s. apply H. Qed.

Lemma preserves_deref l : preserves R (deref l).
Proof. intros s. unfold deref, state_of. destruct (heap s !! l); reflexivity. Qed.

Lemma preserves_get_column l name : preserves R (get_column l name).
Proof. intros s. rewrite keeps_state_get_column. reflexivity. Qed.

Lemma preserves_replay msgs : preserves R (replay msgs).
Proof. intros s. rewrite replay_run. reflexivity. Qed.

(** What [R] has to allow: a new object, an object replaced, a cache entry
    written. *)
Hypothesis R_alloc :
  forall s d, R s (set_heap (<[next_id s := d]> (heap s)) (S (next_id s)) s).
Hypothesis R_store :
  forall s l d d', heap s !! l = Some d -> R s (store l d' s).
Hypothesis R_cache :
  forall s k v, R s (set_fetch_cache (<[k := v]> (fetch_cache s)) s).

Lemma preserves_alloc d : preserves R (alloc d).
Proof. intros s. apply R_alloc. Qed.

Lemma preserves_set_column l name values : preserves R (set_column l name values).
Proof.
  intros s. unfold set_column, bind, deref, state_of.
  destruct (heap s !! l) as [d|] eqn:Hl; [|reflexivity].
  destruct (_ =? _)%nat; [|reflexivity].
  simpl. by eapply R_store.
Qed.

Variable env : Provider.

Lemma preserves_fetch_stock_data ticker a b :
  preserves R (fetch_stock_data env ticker a b).
Proof.
  unfold fetch_stock_data.
  apply preserves_bind; [apply preserves_emit|]. intros _.
  apply preserves_bind; [apply preserves_get|]. intros s.
  destruct (fetch_cache s !! _) as [[v msgs]|].
  - apply preserves_bind; [apply preserves_replay|]. intros _.
    destruct v; simpl; [|apply preserves_ret].
    apply preserves_bind; [apply preserves_alloc | intros; apply preserves_ret].
  - apply preserves_bind.
    + apply preserves_listen. unfold fetch_stock_data_body.
      apply preserves_try_except.
      * apply preserves_bind; [apply preserves_emit|]. intros _.
        apply preserves_bind; [apply preserves_lift|]. intros d.
        apply preserves_bind; [apply preserves_alloc|]. intros l.
        destruct (df_empty d); [|apply preserves_ret].
        apply preserves_bind; [apply preserves_emit | intros; apply preserves_ret].
      * intros e.
        apply preserves_bind; [apply preserves_emit | intros; apply preserves_ret].
    + intros [r t].
      apply preserves_bind; [apply preserves_get|]. intros s1.
      apply preserves_bind; [|intros; apply preserves_ret].
      apply preserves_modify. intros s2. apply R_cache.
Qed.

Lemma preserves_predict_price_movement data days :
  preserves R (predict_price_movement env data days).
Proof.
  intros s. rewrite predict_price_movement_state.
  destruct data as [l|]; [|reflexivity].
  destruct (heap s !! l) as [d|] eqn:Hl; [|reflexivity].
  destruct (_ <? _)%nat; [reflexivity|]. by eapply R_store.
Qed.

Lemma preserves_analyze_single_stock stock c p :
  preserves R (analyze_single_stock env stock c p).
Proof.
  intros s.
  assert (H : state_of (analyze_single_stock env stock c p s) = s).
  { unfold analyze_single_stock, bind, try_except, lift, emit, ui, st_warning,
      st_recommend, emit, state_of.
    destruct (ticker_shortName env stock) as [name|e]; [|reflexivity].
    destruct (ticker_options env stock) as [[|expiry ds]|e];
      [reflexivity | | reflexivity].
    simpl.
    destruct (ticker_option_chain env stock expiry) as [chain|e]; [|reflexivity].
    destruct (recommendation c p); reflexivity. }
  rewrite H. reflexivity.
Qed.

Lemma preserves_collect_results universe results :
  preserves R (collect_results env universe results).
Proof.
  revert results. induction universe as [|t rest IH]; intros results; simpl.
  - apply preserves_ret.
  - apply preserves_bind; [|apply IH].
    unfold process_ticker. apply preserves_try_except.
    + apply preserves_bind; [apply preserves_fetch_stock_data|].
      intros [l|]; [|apply preserves_ret].
      apply preserves_bind; [apply preserves_predict_price_movement|].
      intros [[c|] [p|]]; apply preserves_ret.
    + intros e.
      apply preserves_bind; [apply preserves_emit | intros; apply preserves_ret].
Qed.

Lemma preserves_show_entries l : preserves R (show_entries env l).
Proof.
  induction l as [|entry rest IH]; simpl; [apply preserves_ret|].
  apply preserves_bind; [|intros _; exact IH].
  unfold show_entry. apply preserves_try_except; [|intros e; apply preserves_emit].
  apply preserves_bind; [apply preserves_emit|]. intros _.
  apply preserves_bind; [apply preserves_emit|]. intros _.
  apply preserves_analyze_single_stock.
Qed.

Lemma preserves_find_top_recommendations_over universe :
  preserves R (find_top_recommendations_over env universe).
Proof.
  unfold find_top_recommendations_over.
  apply preserves_bind; [apply preserves_emit|]. intros _.
  apply preserves_bind; [apply preserves_collect_results|]. intros results.
  destruct (filter _ results); [apply preserves_emit | apply preserves_show_entries].
Qed.

Lemma preserves_tab_options_analysis : preserves R (tab_options_analysis env).
Proof.
  unfold tab_options_analysis.
  apply preserves_bind; [apply preserves_emit|]. intros _.
  apply preserves_bind; [apply preserves_get|]. intros s.
  destruct (session_selected_stock s) as [[|ch rest]|];
    [apply preserves_emit | | apply preserves_emit].
  apply preserves_bind; [apply preserves_emit|]. intros _.
  apply preserves_bind; [apply preserves_predict_price_movement|].
  intros [[c|] [p|]]; try apply preserves_emit.
  apply preserves_analyze_single_stock.
Qed.

Lemma preserves_tab_top_recommendations inp :
  preserves R (tab_top_recommendations env inp).
Proof.
  unfold tab_top_recommendations.
  destruct (in_top_clicked inp); [|apply preserves_ret].
  apply preserves_find_top_recommendations_over.
Qed.

(** A run of the script that does not take the single-ticker branch. *)
Lemma preserves_main_without_selection inp :
  in_selected_stock inp = "Analyze All"%string \/ in_analyze_clicked inp = false ->
  preserves R (main env inp).
Proof.
  intros Hsel. unfold main.
  apply preserves_try_except;
    [|intros e; apply preserves_bind; [apply preserves_emit | intros; apply preserves_emit]].
  apply preserves_bind.
  { unfold tab_stock_analysis.
    apply preserves_bind; [apply preserves_emit|]. intros _.
    destruct (in_analyze_clicked inp); [|apply preserves_ret].
    destruct Hsel as [->|]; [|discriminate].
    simpl. apply preserves_find_top_recommendations_over. }
  intros _. apply preserves_bind; [apply preserves_tab_options_analysis|].
  intros _. apply preserves_tab_top_recommendations.
Qed.

(** With a relation that also allows the session values to change, every
    run of the script. *)
Hypothesis R_session : forall s sel dat, R s (set_session sel dat s).

Lemma preserves_main inp : preserves R (main env inp).
Proof.
  unfold main.
  apply preserves_try_except;
    [|intros e; apply preserves_bind; [apply preserves_emit | intros; apply preserves_emit]].
  apply preserves_bind.
  { unfold tab_stock_analysis.
    apply preserves_bind; [apply preserves_emit|]. intros _.
    destruct (in_analyze_clicked inp); [|apply preserves_ret].
    destruct (String.eqb _ _); [apply preserves_find_top_recommendations_over|].
    apply preserves_bind; [apply preserves_modify; intros s; apply R_session|].
    intros _. apply preserves_bind; [apply preserves_fetch_stock_data|].
    intros [l|]; [|apply preserves_ret].
    apply preserves_bind; [apply preserves_modify; intros s; apply R_session|].
    intros _. apply preserves_bind; [apply preserves_predict_price_movement|].
    intros [[c|] [p|]]; try apply preserves_emit.
    do 3 (apply preserves_bind; [apply preserves_emit|]; intros _).
    apply preserves_analyze_single_stock. }
  intros _. apply preserves_bind; [apply preserves_tab_options_analysis|].
  intros _. apply preserves_tab_top_recommendations.
Qed.

End Preserves.

(** ** The three relations *)

#[local] Instance same_session_preorder : PreOrder same_session.
Proof.
  split.
  - by intros s.
  - intros s1 s2 s3 [H1 H2] [H3 H4]. split; congruence.
Qed.

#[local] Instance cache_grows_preorder : PreOrder cache_grows.
Proof.
  split.
  - by intros s k.
  - intros s1 s2 s3 H1 H2 k Hk. by apply H2, H1.
Qed.

#[local] Instance heap_grows_preorder : PreOrder heap_grows.
Proof.
  split.
  - intros s Hwf. repeat split; auto.
  - intros s1 s2 s3 H1 H2 Hwf.
    destruct (H1 Hwf) as (Hwf2 & Hn2 & Hk2).
    destruct (H2 Hwf2) as (Hwf3 & Hn3 & Hk3).
    repeat split; [exact Hwf3 | lia | auto].
Qed.

Lemma heap_grows_alloc s d :
  heap_grows s (set_heap (<[next_id s := d]> (heap s)) (S (next_id s)) s).
Proof.
  intros Hwf. unfold set_heap, heap_wf. cbn [heap next_id]. repeat split.
  - intros l Hl. rewrite lookup_insert_ne by lia. apply Hwf. lia.
  - lia.
  - intros l [x Hx]. destruct (decide (next_id s = l)) as [<-|Hne].
    + rewrite lookup_insert_eq. by eexists.
    + rewrite lookup_insert_ne by done. by eexists.
Qed.

Lemma heap_grows_store s l d d' : heap s !! l = Some d -> heap_grows s (store l d' s).
Proof.
  intros Hl Hwf. unfold store, set_heap, heap_wf. cbn [heap next_id]. repeat split.
  - intros l' Hl'. destruct (decide (l = l')) as [<-|Hne].
    + rewrite (Hwf l Hl') in Hl. discriminate.
    + rewrite lookup_insert_ne by done. by apply Hwf.
  - lia.
  - intros l' [x Hx]. destruct (decide (l = l')) as [<-|Hne].
    + rewrite lookup_insert_eq. by eexists.
    + rewrite lookup_insert_ne by done. by eexists.
Qed.

Lemma cache_grows_insert s k v :
  cache_grows s (set_fetch_cache (<[k := v]> (fetch_cache s)) s).
Proof.
  intros k' Hk'. unfold set_fetch_cache. cbn [fetch_cache].
  destruct (decide (k = k')) as [<-|Hne].
  - rewrite lookup_insert_eq. by eexists.
  - by rewrite lookup_insert_ne.
Qed.

(** ** The loader, case by case *)

Section Loader.

Variable env : Provider.

Lemma ui_messages_map_EvUi msgs : ui_messages (map EvUi msgs) = msgs.
Proof. induction msgs as [|m msgs IH]; simpl; [reflexivity | by rewrite IH]. Qed.

Lemma fetch_stock_data_hit ticker a b s v msgs :
  fetch_cache s !! (ticker, a, b) = Some (v, msgs) ->
  fetch_stock_data env ticker a b s
  = match v with
    | Some d =>
        (Ok (Some (next_id s)),
         set_heap (<[next_id s := d]> (heap s)) (S (next_id s)) s,
         EvCallFetch ticker a b :: map EvUi msgs)
    | None => (Ok None, s, EvCallFetch ticker a b :: map EvUi msgs)
    end.
Proof.
  intros H. unfold fetch_stock_data, bind at 1, emit. unfold bind at 1, get.
  rewrite H. unfold bind at 1. rewrite replay_run.
  destruct v as [d|]; simpl; by rewrite app_nil_r.
Qed.

Lemma fetch_stock_data_miss ticker a b s :
  fetch_cache s !! (ticker, a, b) = None ->
  fetch_stock_data env ticker a b s
  = let symbol := str_replace "." "-" ticker in
    let fresh d := set_heap (<[next_id s := d]> (heap s)) (S (next_id s)) s in
    match yf_download env symbol a b with
    | Raise e =>
        (Ok None,
         remember ticker a b None [StWarning (ErrorFetching ticker e)] s,
         [EvCallFetch ticker a b; EvDownload symbol a b;
          EvUi (StWarning (ErrorFetching ticker e))])
    | Ok d =>
        if df_empty d
        then (Ok None,
              remember ticker a b None [StWarning (NoDataFound ticker)] (fresh d),
              [EvCallFetch ticker a b; EvDownload symbol a b;
               EvUi (StWarning (NoDataFound ticker))])
        else (Ok (Some (next_id s)),
              remember ticker a b (Some d) [] (fresh d),
              [EvCallFetch ticker a b; EvDownload symbol a b])
    end.
Proof.
  intros H. unfold fetch_stock_data, bind at 1, emit. unfold bind at 1, get.
  rewrite H. cbv zeta.
  unfold fetch_stock_data_body, bind, listen, try_except, emit, lift, alloc,
    st_warning, ui, emit, ret, get, modify, remember.
  destruct (yf_download env _ a b) as [d|e]; [|reflexivity].
  destruct (df_empty d); simpl; [reflexivity|].
  by rewrite lookup_insert_eq.
Qed.

Lemma never_raises_fetch_stock_data ticker a b :
  never_raises (fetch_stock_data env ticker a b).
Proof.
  intros s. destruct (fetch_cache s !! (ticker, a, b)) as [[v msgs]|] eqn:E.
  - rewrite (fetch_stock_data_hit _ _ _ _ _ _ E). destruct v; by eexists.
  - rewrite (fetch_stock_data_miss _ _ _ _ E). cbv zeta.
    destruct (yf_download env _ a b) as [d|e]; [|by eexists].
    destruct (df_empty d); by eexists.
Qed.

(** After a call the cache has an entry for its arguments, and the entry
    holds what the call returned and showed. *)
Lemma fetch_stock_data_remembers ticker a b s :
  fetch_cache (state_of (fetch_stock_data env ticker a b s)) !! (ticker, a, b)
  = Some (returned_frame (fetch_stock_data env ticker a b s),
          ui_messages (trace_of (fetch_stock_data env ticker a b s))).
Proof.
  destruct (fetch_cache s !! (ticker, a, b)) as [[v msgs]|] eqn:E.
  - rewrite (fetch_stock_data_hit _ _ _ _ _ _ E).
    destruct v as [d|]; unfold returned_frame, state_of, result_of, trace_of; simpl;
      rewrite ?lookup_insert_eq, ui_messages_map_EvUi; exact E.
  - rewrite (fetch_stock_data_miss _ _ _ _ E). cbv zeta.
    destruct (yf_download env _ a b) as [d|e].
    + destruct (df_empty d);
        unfold returned_frame, state_of, result_of, trace_of, remember; simpl;
        rewrite ?lookup_insert_eq; reflexivity.
    + unfold returned_frame, state_of, result_of, trace_of, remember; simpl.
      by rewrite lookup_insert_eq.
Qed.

(** A call that finds an entry returns and shows what the entry holds, and
    asks the provider nothing. *)
Lemma fetch_stock_data_from_cache ticker a b s v msgs :
  fetch_cache s !! (ticker, a, b) = Some (v, msgs) ->
  returned_frame (fetch_stock_data env ticker a b s) = v
  /\ ui_messages (trace_of (fetch_stock_data env ticker a b s)) = msgs
  /\ downloads (trace_of (fetch_stock_data env ticker a b s)) = [].
Proof.
  intros E. rewrite downloads_fetch_stock_data, E.
  rewrite (fetch_stock_data_hit _ _ _ _ _ _ E).
  destruct v as [d|]; unfold returned_frame, state_of, result_of, trace_of; simpl;
    rewrite ?lookup_insert_eq, ui_messages_map_EvUi; auto.
Qed.

End Loader.

Section LoaderBatch.

Variable env : Provider.

Lemma fetch_stock_data_cached_after ticker a b s :
  is_Some (fetch_cache (state_of (fetch_stock_data env ticker a b s)) !! (ticker, a, b)).
Proof. rewrite fetch_stock_data_remembers. by eexists. Qed.

Lemma cache_grows_fetch_stock_data ticker a b s :
  cache_grows s (state_of (fetch_stock_data env ticker a b s)).
Proof.
  apply (preserves_fetch_stock_data cache_grows).
  - intros s0 d k Hk. exact Hk.
  - intros s0 k v. apply cache_grows_insert.
Qed.

Lemma cache_grows_predict_price_movement data days s :
  cache_grows s (state_of (predict_price_movement env data days s)).
Proof. intros k. by rewrite predict_price_movement_cache. Qed.

Lemma state_process_ticker ticker results s :
  state_of (process_ticker env ticker results s)
  = let r := fetch_stock_data env ticker (PdTimestamp (2022, 1, 1)%nat)
               (PyDate (date_today env)) s in
    match result_of r with
    | Ok (Some l) => state_of (predict_price_movement env (Some l) 7 (state_of r))
    | _ => state_of r
    end.
Proof.
  cbv zeta. unfold process_ticker. rewrite state_try_except, result_bind, state_bind.
  destruct (never_raises_fetch_stock_data env ticker (PdTimestamp (2022, 1, 1)%nat)
              (PyDate (date_today env)) s) as [[l|] ->]; [|reflexivity].
  rewrite result_bind, state_bind.
  destruct (result_of (predict_price_movement env _ _ _)) as [[[c|] [p|]]|e]; reflexivity.
Qed.

Lemma cache_grows_process_ticker ticker results s :
  cache_grows s (state_of (process_ticker env ticker results s)).
Proof.
  rewrite state_process_ticker. cbv zeta.
  pose proof (cache_grows_fetch_stock_data ticker (PdTimestamp (2022, 1, 1)%nat)
                (PyDate (date_today env)) s) as H.
  destruct (result_of _) as [[l|]|e]; try exact H.
  etransitivity; [exact H | apply cache_grows_predict_price_movement].
Qed.

Lemma process_ticker_cached_after ticker results s :
  is_Some (fetch_cache (state_of (process_ticker env ticker results s))
           !! batch_fetch_args env ticker).
Proof.
  rewrite state_process_ticker. cbv zeta.
  pose proof (fetch_stock_data_cached_after ticker (PdTimestamp (2022, 1, 1)%nat)
                (PyDate (date_today env)) s) as H.
  destruct (result_of _) as [[l|]|e]; try exact H.
  by apply cache_grows_predict_price_movement.
Qed.

Lemma cache_grows_collect_results universe results s :
  cache_grows s (state_of (collect_results env universe results s)).
Proof.
  revert results s. induction universe as [|t rest IH]; intros results s; simpl.
  - reflexivity.
  - rewrite state_bind.
    destruct (never_raises_process_ticker env t results s) as [r ->].
    etransitivity; [apply cache_grows_process_ticker | apply IH].
Qed.

Lemma collect_results_cached_after universe results s :
  Forall (fun t => is_Some (fetch_cache (state_of (collect_results env universe results s))
                            !! batch_fetch_args env t)) universe.
Proof.
  revert results s. induction universe as [|t rest IH]; intros results s; [constructor|].
  simpl. rewrite state_bind.
  destruct (never_raises_process_ticker env t results s) as [r ->].
  constructor; [|apply IH].
  apply cache_grows_collect_results, process_ticker_cached_after.
Qed.

Lemma downloads_process_ticker_cached ticker results s :
  is_Some (fetch_cache s !! batch_fetch_args env ticker) ->
  downloads (trace_of (process_ticker env ticker results s)) = [].
Proof.
  intros [[v msgs] Hk]. unfold process_ticker.
  rewrite trace_try_except, trace_bind. unfold downloads. rewrite !omap_app.
  fold (downloads (trace_of (fetch_stock_data env ticker (PdTimestamp (2022, 1, 1)%nat)
                               (PyDate (date_today env)) s))).
  rewrite downloads_fetch_stock_data. unfold batch_fetch_args in Hk. rewrite Hk.
  cbn [app].
  rewrite (omap_silent _ (match result_of (fetch_stock_data _ _ _ _ _) with
                          | Ok _ => _ | Raise _ => _ end)).
  - destruct (result_of (bind _ _ s)); reflexivity.
  - destruct (result_of (fetch_stock_data _ _ _ _ _)) as [[l|]|e];
      [|apply all_events_ret | constructor].
    apply all_events_bind; [by apply all_events_predict_price_movement|].
    intros [[c|] [p|]]; apply all_events_ret.
Qed.

Lemma downloads_collect_results_cached universe results s :
  Forall (fun t => is_Some (fetch_cache s !! batch_fetch_args env t)) universe ->
  downloads (trace_of (collect_results env universe results s)) = [].
Proof.
  intros H. revert results s H.
  induction universe as [|t rest IH]; intros results s H; [reflexivity|].
  apply Forall_cons in H as [Ht Hrest].
  cbn [collect_results]. rewrite trace_bind. unfold downloads. rewrite omap_app.
  fold (downloads (trace_of (process_ticker env t results s))).
  rewrite downloads_process_ticker_cached by exact Ht.
  destruct (never_raises_process_ticker env t results s) as [r ->].
  apply IH. eapply Forall_impl; [exact Hrest|].
  intros t'. apply cache_grows_process_ticker.
Qed.

End LoaderBatch.

(** ** The loader *)

(** X1: the loader never lets an exception escape. On a cache miss it
    returns nothing and shows the warning "Error fetching data ..." when the
    provider raises, returns nothing and shows "No data found ..." when the
    provider's table is empty, and otherwise returns the provider's table,
    unchanged, and shows nothing. *)
Theorem loader_outcome_on_miss
    (env : Provider) (ticker : string) (a b : DateArg) (s : State) :
  let r := fetch_stock_data env ticker a b s in
  (exists o, result_of r = Ok o)
  /\ (fetch_cache s !! (ticker, a, b) = None ->
      match yf_download env (str_replace "." "-" ticker) a b with
      | Raise e =>
          result_of r = Ok None
          /\ ui_messages (trace_of r) = [StWarning (ErrorFetching ticker e)]
      | Ok d =>
          if df_empty d
          then result_of r = Ok None
               /\ ui_messages (trace_of r) = [StWarning (NoDataFound ticker)]
          else returned_frame r = Some d /\ ui_messages (trace_of r) = []
      end).
Proof.
  cbv zeta. split; [apply never_raises_fetch_stock_data|].
  intros E. rewrite (fetch_stock_data_miss _ _ _ _ _ E). cbv zeta.
  destruct (yf_download env _ a b) as [d|e]; [|by split].
  destruct (df_empty d); [by split|].
  unfold returned_frame, result_of, state_of, remember. simpl.
  by rewrite lookup_insert_eq.
Qed.

Lemma loader_outcome_on_miss_witness :
  returned_frame (fetch_stock_data Demo.provider "BRK.B" (PyDate (2024, 1, 1)%nat)
                    (PyDate (2024, 6, 3)%nat) Demo.state0)
  = Some (Demo.bars [50; 50; 50])
  /\ ui_messages (trace_of (fetch_stock_data Demo.provider "BRK.B"
                              (PyDate (2024, 1, 1)%nat) (PyDate (2024, 6, 3)%nat)
                              Demo.state0))
     = [].
Proof.
  exact (proj2 (loader_outcome_on_miss Demo.provider "BRK.B" (PyDate (2024, 1, 1)%nat)
                  (PyDate (2024, 6, 3)%nat) Demo.state0) eq_refl).
Defined.

(** X2: the loader memoizes. Once it has been called with some arguments,
    a call with the same arguments, in any later state whose cache still is
    the one that call left, asks the provider nothing, shows the same
    messages and returns a table with the same content. *)
Theorem loader_memoizes
    (env : Provider) (ticker : string) (a b : DateArg) (s s2 : State) :
  let r1 := fetch_stock_data env ticker a b s in
  let r2 := fetch_stock_data env ticker a b s2 in
  fetch_cache s2 = fetch_cache (state_of r1) ->
  downloads (trace_of r2) = []
  /\ ui_messages (trace_of r2) = ui_messages (trace_of r1)
  /\ returned_frame r2 = returned_frame r1.
Proof.
  cbv zeta. intros Hc.
  pose proof (fetch_stock_data_remembers env ticker a b s) as H. rewrite <- Hc in H.
  destruct (fetch_stock_data_from_cache env ticker a b s2 _ _ H) as (H1 & H2 & H3).
  auto.
Qed.

Lemma loader_memoizes_witness :
  let r1 := fetch_stock_data Demo.provider "TSLA" (PyDate (2024, 1, 1)%nat)
              (PyDate (2024, 6, 3)%nat) Demo.state0 in
  let r2 := fetch_stock_data Demo.provider "TSLA" (PyDate (2024, 1, 1)%nat)
              (PyDate (2024, 6, 3)%nat) (state_of r1) in
  downloads (trace_of r2) = []
  /\ ui_messages (trace_of r2) = ui_messages (trace_of r1)
  /\ returned_frame r2 = returned_frame r1.
Proof.
  cbv zeta.
  apply (loader_memoizes Demo.provider "TSLA" (PyDate (2024, 1, 1)%nat)
           (PyDate (2024, 6, 3)%nat) Demo.state0). reflexivity.
Defined.

(** X3: what the forecaster does to a table the loader has returned does
    not reach the cache: a second call of the loader returns the content the
    first call returned, not the table with the column "Days" that the
    forecaster has made of it. *)
Theorem loader_cache_isolated_from_forecast
    (env : Provider) (ticker : string) (a b : DateArg) (days : Z) (s : State) :
  let r1 := fetch_stock_data env ticker a b s in
  let data := match result_of r1 with Ok o => o | Raise _ => None end in
  let s2 := state_of (predict_price_movement env data days (state_of r1)) in
  returned_frame (fetch_stock_data env ticker a b s2) = returned_frame r1.
Proof.
  cbv zeta.
  pose proof (fetch_stock_data_remembers env ticker a b s) as H.
  rewrite <- (predict_price_movement_cache env
                (match result_of (fetch_stock_data env ticker a b s) with
                 | Ok o => o | Raise _ => None end) days) in H.
  by destruct (fetch_stock_data_from_cache env ticker a b _ _ _ H) as (H1 & _).
Qed.

(** On the demo world: after a forecast the first table has the column
    "Days", the table of the second call has not. *)
Example loader_cache_isolated_demo :
  let r1 := fetch_stock_data Demo.provider "AAPL" (PyDate (2024, 1, 1)%nat)
              (PyDate (2024, 6, 3)%nat) Demo.state0 in
  let s2 := state_of (predict_price_movement Demo.provider (Some 0%nat) 7 (state_of r1)) in
  (heap s2 !! 0%nat) ≫= (fun d => df_columns d !! "Days")
  = Some (map Finite [0; 1; 2; 3; 4])
  /\ returned_frame (fetch_stock_data Demo.provider "AAPL" (PyDate (2024, 1, 1)%nat)
                       (PyDate (2024, 6, 3)%nat) s2)
     = Some (Demo.bars [100; 101; 102; 103; 104]).
Proof. split; vm_compute; reflexivity. Qed.

(** X4: in a well-formed heap the loader returns a new object: its identity
    was not in use before the call, it holds a table after the call, and no
    object that existed before the call has been changed. *)
Theorem loader_returns_fresh_object
    (env : Provider) (ticker : string) (a b : DateArg) (s : State) (l : nat) :
  heap_wf s ->
  result_of (fetch_stock_data env ticker a b s) = Ok (Some l) ->
  let s' := state_of (fetch_stock_data env ticker a b s) in
  heap s !! l = None
  /\ is_Some (heap s' !! l)
  /\ (forall l' d, heap s !! l' = Some d -> heap s' !! l' = Some d)
  /\ heap_wf s'.
Proof.
  intros Hwf Hr. cbv zeta.
  assert (Hfresh : forall d l' d', heap s !! l' = Some d' ->
                                   <[next_id s := d]> (heap s) !! l' = Some d').
  { intros d l' d' Hl'. rewrite lookup_insert_ne; [exact Hl'|].
    intros <-. rewrite (Hwf (next_id s)) in Hl' by lia. discriminate. }
  assert (Hwf' : forall d, heap_wf (set_heap (<[next_id s := d]> (heap s))
                                      (S (next_id s)) s)).
  { intros d. by apply heap_grows_alloc. }
  destruct (fetch_cache s !! (ticker, a, b)) as [[v msgs]|] eqn:E.
  - rewrite (fetch_stock_data_hit _ _ _ _ _ _ _ E) in *.
    destruct v as [d|]; [|discriminate].
    injection Hr as <-. unfold state_of. simpl.
    split; [apply Hwf; lia|]. split; [rewrite lookup_insert_eq; by eexists|].
    split; [apply Hfresh | apply Hwf'].
  - rewrite (fetch_stock_data_miss _ _ _ _ _ E) in *. cbv zeta in *.
    destruct (yf_download env _ a b) as [d|e]; [|discriminate].
    destruct (df_empty d); [discriminate|].
    injection Hr as <-. unfold state_of, remember. simpl.
    split; [apply Hwf; lia|]. split; [rewrite lookup_insert_eq; by eexists|].
    split; [apply Hfresh | apply (Hwf' d)].
Qed.

Lemma loader_returns_fresh_object_witness :
  let s := Demo.series_state [7] in
  let s' := state_of (fetch_stock_data Demo.provider "MSFT" (PyDate (2024, 1, 1)%nat)
                        (PyDate (2024, 6, 3)%nat) s) in
  heap s !! 1%nat = None
  /\ is_Some (heap s' !! 1%nat)
  /\ (forall l' d, heap s !! l' = Some d -> heap s' !! l' = Some d)
  /\ heap_wf s'.
Proof.
  apply (loader_returns_fresh_object Demo.provider "MSFT" (PyDate (2024, 1, 1)%nat)
           (PyDate (2024, 6, 3)%nat) (Demo.series_state [7]) 1%nat).
  - intros l Hl. unfold Demo.series_state in *. simpl in *.
    apply lookup_singleton_ne. lia.
  - reflexivity.
Defined.

(** ** The batch run and the cache *)

(** X5: a second batch run over the same universe on the same day, started
    in the state the first one left, sends no request to the provider: every
    ticker is answered from the cache. *)
Theorem batch_rerun_uses_cache (env : Provider) (universe : list string) (s : State) :
  let s1 := state_of (find_top_recommendations_over env universe s) in
  downloads (trace_of (find_top_recommendations_over env universe s1)) = [].
Proof.
  cbv zeta.
  set (s1 := state_of (find_top_recommendations_over env universe s)).
  assert (Hcached : Forall (fun t => is_Some (fetch_cache s1 !! batch_fetch_args env t))
                      universe).
  { subst s1. unfold find_top_recommendations_over.
    rewrite state_bind.
    change (result_of (ui ?m s)) with (Ok (A:=unit) tt).
    change (state_of (ui ?m s)) with s. cbv iota.
    rewrite state_bind.
    destruct (never_raises_collect_results env universe [] s) as [results ->].
    eapply Forall_impl; [apply (collect_results_cached_after env universe [] s)|].
    intros t. cbv beta.
    set (sc := state_of (collect_results env universe [] s)).
    destruct (filter _ results); [exact (fun H => H)|].
    apply (preserves_show_entries cache_grows env). }
  destruct (find_top_recommendations_over_run env universe s1)
    as (results & s2 & t2 & Hrun & ->).
  unfold downloads. cbn [omap list_omap]. rewrite omap_app.
  replace t2 with (trace_of (collect_results env universe [] s1)) by (by rewrite Hrun).
  fold (downloads (trace_of (collect_results env universe [] s1))).
  rewrite downloads_collect_results_cached by exact Hcached.
  destruct (filter _ results) as [|x v]; [reflexivity|].
  apply omap_all_events. by apply all_events_show_entries.
Qed.

(** ** Invariants of a run of the script *)

(** X7: a run of the script that does not analyse a single ticker ("Analyze
    All" is selected, or "Analyze Stock" is not clicked) leaves the session
    as it was: the selected stock and its table are those of the last
    single-ticker analysis. *)
Theorem batch_run_keeps_session (env : Provider) (inp : UiInput) (s : State) :
  in_selected_stock inp = "Analyze All"%string \/ in_analyze_clicked inp = false ->
  let s' := state_of (main env inp s) in
  session_selected_stock s' = session_selected_stock s
  /\ session_stock_data s' = session_stock_data s.
Proof.
  intros Hsel. cbv zeta.
  apply (preserves_main_without_selection same_session); try done.
Qed.

Lemma batch_run_keeps_session_witness :
  let s := mkState {[ 0%nat := Demo.bars [100; 97; 94; 91] ]} 1 ∅ (Some "MSFT"%string)
             (Some 0%nat) in
  let s' := state_of (main Demo.provider
                        (mkUiInput "Analyze All" (2022, 1, 1)%nat (2024, 6, 3)%nat true false)
                        s) in
  session_selected_stock s' = Some "MSFT"%string
  /\ session_stock_data s' = Some 0%nat.
Proof.
  cbv zeta.
  apply (batch_run_keeps_session Demo.provider
           (mkUiInput "Analyze All" (2022, 1, 1)%nat (2024, 6, 3)%nat true false)
           (mkState {[ 0%nat := Demo.bars [100; 97; 94; 91] ]} 1 ∅ (Some "MSFT"%string)
              (Some 0%nat))).
  left. reflexivity.
Defined.

(** ** The forecaster, case by case *)

Lemma returns_ret {A} (P : A -> Prop) (a : A) : P a -> returns P (ret a).
Proof. intros H s a' [= <-]. exact H. Qed.

Lemma returns_bind {A B} (P : B -> Prop) (m : M A) (f : A -> M B) :
  (forall a, returns P (f a)) -> returns P (bind m f).
Proof.
  intros Hf s b. rewrite result_bind.
  destruct (result_of (m s)) as [a|e]; [apply Hf | discriminate].
Qed.

Lemma Forall_False_nil {A} (l : list A) : Forall (fun _ => False) l -> l = [].
Proof. by destruct 1. Qed.

(** ** The forecaster *)

(** X8: called on nothing or on an existing series, the forecaster never
    lets an exception escape and returns either two prices or two Nones,
    never one of each; it shows nothing when it returns prices, and at most
    the warning "Error during price prediction" when it returns none. *)
Theorem forecaster_returns_both_or_neither
    (env : Provider) (data : option nat) (days : Z) (s : State) :
  (data = None \/ exists l d, data = Some l /\ heap s !! l = Some d) ->
  let r := predict_price_movement env data days s in
  (exists c p, result_of r = Ok (Some c, Some p) /\ trace_of r = [])
  \/ (result_of r = Ok (None, None)
      /\ (trace_of r = []
          \/ exists e, trace_of r = [EvUi (StWarning (ErrorPrediction e))])).
Proof.
  cbv zeta. intros [->|(l & d & -> & Hl)]; [right; split; [reflexivity | by left]|].
  unfold predict_price_movement.
  rewrite (bind_silent _ _ _ _ _ (deref_run _ _ _ Hl)).
  destruct (df_len d <? 2)%nat; [right; split; [reflexivity | by left]|].
  match goal with |- context [try_except ?m _] => set (body := m) end.
  assert (Hsilent : all_events (fun _ => False) body).
  { subst body. auto 20 with run. }
  assert (Hret : returns (fun r => exists c p, r = (Some c, Some p)) body).
  { subst body. do 9 (apply returns_bind; intros ?).
    apply returns_ret. by eexists _, _. }
  rewrite result_try_except, trace_try_except.
  rewrite (Forall_False_nil _ (Hsilent s)).
  destruct (result_of (body s)) as [r|e] eqn:Er.
  - left. destruct (Hret s r Er) as (c & p & ->). by exists c, p.
  - right. split; [reflexivity|]. right. by exists e.
Qed.

Lemma forecaster_returns_both_or_neither_witness :
  let r := predict_price_movement Demo.provider (Some 0%nat) 7
             (Demo.series_state [100; 97; 94; 91]) in
  (exists c p, result_of r = Ok (Some c, Some p) /\ trace_of r = [])
  \/ (result_of r = Ok (None, None)
      /\ (trace_of r = []
          \/ exists e, trace_of r = [EvUi (StWarning (ErrorPrediction e))])).
Proof.
  apply (forecaster_returns_both_or_neither Demo.provider (Some 0%nat) 7
           (Demo.series_state [100; 97; 94; 91])).
  right. exists 0%nat, (Demo.bars [100; 97; 94; 91]). by split.
Defined.

(** X9: on a series of at least 2 bars without a column "Close" the
    forecaster returns no prices and shows the warning with the KeyError; the
    column "Days" has been written to the series all the same. *)
Theorem forecaster_without_close_column
    (env : Provider) (l : nat) (days : Z) (s : State) (d : DataFrame) :
  heap s !! l = Some d ->
  (2 <= df_len d)%nat ->
  df_columns d !! "Close" = None ->
  predict_price_movement env (Some l) days s
  = (Ok (None, None),
     store l (with_column "Days" (map Finite (day_index (df_len d))) d) s,
     [EvUi (StWarning (ErrorPrediction "KeyError"))]).
Proof.
  intros Hl Hn Hc. rewrite (predict_price_movement_eval env l days s d Hl Hn).
  unfold forecast_outcome. by rewrite Hc.
Qed.

Lemma forecaster_without_close_column_witness :
  predict_price_movement Demo.provider (Some 0%nat) 7
    (mkState {[ 0%nat := mkDataFrame [(2024, 1, 1); (2024, 1, 2)]%nat
                           {[ "Open" := [Finite 1; Finite 2] ]} ]} 1 ∅ None None)
  = (Ok (None, None),
     store 0 (with_column "Days" (map Finite (day_index 2))
                (mkDataFrame [(2024, 1, 1); (2024, 1, 2)]%nat
                   {[ "Open" := [Finite 1; Finite 2] ]}))
       (mkState {[ 0%nat := mkDataFrame [(2024, 1, 1); (2024, 1, 2)]%nat
                              {[ "Open" := [Finite 1; Finite 2] ]} ]} 1 ∅ None None),
     [EvUi (StWarning (ErrorPrediction "KeyError"))]).
Proof.
  apply (forecaster_without_close_column Demo.provider 0%nat 7
           (mkState {[ 0%nat := mkDataFrame [(2024, 1, 1); (2024, 1, 2)]%nat
                                  {[ "Open" := [Finite 1; Finite 2] ]} ]} 1 ∅ None None)
           (mkDataFrame [(2024, 1, 1); (2024, 1, 2)]%nat
              {[ "Open" := [Finite 1; Finite 2] ]})).
  - reflexivity.
  - vm_compute. lia.
  - reflexivity.
Defined.

Lemma predict_price_movement_unfold env l days s d :
  heap s !! l = Some d ->
  (2 <= df_len d)%nat ->
  predict_price_movement env (Some l) days s
  = try_except (forecast_from_days env l (df_len d) days) forecast_failed
      (store l (with_column "Days" (day_cells (df_len d)) d) s).
Proof.
  intros Hl Hn. unfold predict_price_movement.
  rewrite (bind_silent _ _ _ _ _ (deref_run _ _ _ Hl)).
  destruct (df_len d <? 2)%nat eqn:E; [apply Nat.ltb_lt in E; lia|].
  fold (day_index (df_len d)). fold (day_cells (df_len d)). unfold try_except.
  rewrite (bind_silent _ _ _ _ _
             (set_column_run _ _ _ _ _ Hl (day_cells_length (df_len d)))).
  reflexivity.
Qed.

Lemma store_store l d s : store l d (store l d s) = store l d s.
Proof. unfold store, set_heap. simpl. by rewrite insert_insert_eq. Qed.

Lemma with_column_with_column name values d :
  with_column name values (with_column name values d) = with_column name values d.
Proof. unfold with_column. simpl. by rewrite insert_insert_eq. Qed.

(** X10: the forecaster is idempotent. Called again on the same series, in
    the state its first call left, it returns the same prices, shows the
    same and leaves the state as it is: the column "Days" is overwritten
    with the values it already has. *)
Theorem forecaster_idempotent (env : Provider) (data : option nat) (days : Z) (s : State) :
  let s' := state_of (predict_price_movement env data days s) in
  predict_price_movement env data days s' = predict_price_movement env data days s.
Proof.
  cbv zeta. rewrite predict_price_movement_state.
  destruct data as [l|]; [|reflexivity].
  destruct (heap s !! l) as [d|] eqn:Hl; [|reflexivity].
  destruct (df_len d <? 2)%nat eqn:E; [reflexivity|].
  apply Nat.ltb_ge in E.
  set (d' := with_column "Days" (day_cells (df_len d)) d).
  rewrite (predict_price_movement_unfold env l days s d Hl E). fold d'.
  assert (Hl' : heap (store l d' s) !! l = Some d') by apply lookup_insert_eq.
  rewrite (predict_price_movement_unfold env l days (store l d' s) d' Hl' E).
  change (df_len d') with (df_len d).
  subst d'. by rewrite with_column_with_column, store_store.
Qed.

(** On the demo world the second forecast gives the prices of the first. *)
Example forecaster_idempotent_demo :
  let s := Demo.series_state [100; 101; 102; 103; 104] in
  let s' := state_of (predict_price_movement Demo.provider (Some 0%nat) 7 s) in
  s' <> s
  /\ state_of (predict_price_movement Demo.provider (Some 0%nat) 7 s') = s'.
Proof.
  split.
  - intros H. apply (f_equal (fun st => (heap st !! 0%nat)
                                        ≫= (fun d => df_columns d !! "Days"))) in H.
    discriminate H.
  - reflexivity.
Qed.

(** ** The screener, case by case *)

(** X11: the only exception the screener lets escape is one raised while it
    reads the name of the stock for its heading, before anything is shown;
    when the name can be read it returns normally whatever the provider
    does. It never changes the state. *)
Theorem screener_exception_only_from_name
    (env : Provider) (stock : string) (c p : Q) (s : State) :
  match ticker_shortName env stock with
  | Raise e =>
      analyze_single_stock env stock c p s = (Raise e, s, [EvCallAnalyze stock c p])
  | Ok name =>
      result_of (analyze_single_stock env stock c p s) = Ok tt
      /\ state_of (analyze_single_stock env stock c p s) = s
  end.
Proof.
  unfold analyze_single_stock, bind, try_except, lift, emit, ui, st_warning,
    st_recommend, emit, result_of, state_of.
  destruct (ticker_shortName env stock) as [name|e]; [|reflexivity].
  destruct (ticker_options env stock) as [[|expiry ds]|e]; [by split | | by split].
  simpl.
  destruct (ticker_option_chain env stock expiry) as [chain|e]; [|by split].
  destruct (recommendation c p); by split.
Qed.

(** X12: what the screener shows, case by case. With no expiry date it
    shows, after its heading, the warning "No options data available" and
    nothing else; when the expiry dates or the chain cannot be retrieved it
    shows the warning "Error analyzing options" with the message of the
    exception, and neither a table nor a recommendation; otherwise the two
    filtered tables, calls first, and then one recommendation. *)
Theorem screener_shows_by_case
    (env : Provider) (stock name : string) (c p : Q) (s : State) :
  ticker_shortName env stock = Ok name ->
  let heading := [EvCallAnalyze stock c p; EvUi (StSubheaderOptions name)] in
  match ticker_options env stock with
  | Ok [] =>
      trace_of (analyze_single_stock env stock c p s)
      = heading ++ [EvUi (StWarning (NoOptionsData name))]
  | Raise e =>
      trace_of (analyze_single_stock env stock c p s)
      = heading ++ [EvUi (StWarning (ErrorAnalyzingOptions e))]
  | Ok (expiry :: _) =>
      match ticker_option_chain env stock expiry with
      | Raise e =>
          trace_of (analyze_single_stock env stock c p s)
          = heading ++ [EvUi (StWarning (ErrorAnalyzingOptions e))]
      | Ok chain =>
          trace_of (analyze_single_stock env stock c p s)
          = heading
            ++ [EvUi (StWrite "Relevant Call Options");
                EvUi (StDataframe (filter (fun k => strike_in_range c k = true)
                                     (calls chain)));
                EvUi (StWrite "Relevant Put Options");
                EvUi (StDataframe (filter (fun k => strike_in_range c k = true)
                                     (puts chain)));
                EvUi (match recommendation c p with
                      | HOLD => StInfoHold
                      | cat => StSuccess cat p c
                      end)]
      end
  end.
Proof.
  intros Hname. cbv zeta.
  unfold analyze_single_stock, bind, try_except, lift, emit, ui, st_warning,
    st_recommend, emit, trace_of.
  rewrite Hname.
  destruct (ticker_options env stock) as [[|expiry ds]|e]; [reflexivity | | reflexivity].
  simpl.
  destruct (ticker_option_chain env stock expiry) as [chain|e]; [|reflexivity].
  destruct (recommendation c p); reflexivity.
Qed.

Lemma screener_shows_by_case_witness :
  trace_of (analyze_single_stock Demo.provider "BRK-B" 50 50 Demo.state0)
  = [EvCallAnalyze "BRK-B" 50 50; EvUi (StSubheaderOptions "BRK-B")]
    ++ [EvUi (StWarning (NoOptionsData "BRK-B"))].
Proof.
  exact (screener_shows_by_case Demo.provider "BRK-B" "BRK-B" 50 50 Demo.state0 eq_refl).
Defined.

(** ** The decision rule and the strike window *)

(** X13: the recommendation is monotone in the predicted price: for the
    same current price, a higher prediction never gives a more bearish
    category (BUY_PUTS below HOLD below BUY_CALLS). *)
Theorem recommendation_monotone (c p1 p2 : Q) :
  p1 <= p2 ->
  (bullishness (recommendation c p1) <= bullishness (recommendation c p2))%Z.
Proof.
  intros Hp.
  destruct (recommendation c p1) eqn:E1; destruct (recommendation c p2) eqn:E2;
    simpl; try lia; exfalso.
  - apply recommendation_BUY_CALLS in E1. apply recommendation_BUY_PUTS in E2. lra.
  - apply recommendation_BUY_CALLS in E1. apply recommendation_HOLD in E2. lra.
  - apply recommendation_HOLD in E1. apply recommendation_BUY_PUTS in E2. lra.
Qed.

Lemma recommendation_monotone_witness :
  (bullishness (recommendation 100 94) <= bullishness (recommendation 100 106))%Z.
Proof.
  apply recommendation_monotone. unfold Qle. simpl. lia.
Defined.

(** X15: for a current price that is not negative, the strike window
    contains the current price: a contract struck at the current price is
    always kept. *)
Theorem strike_window_at_the_money (c : Q) (k : OptionContract) :
  0 <= c -> strike k == c -> strike_in_range c k = true.
Proof.
  intros Hc Hk. apply strike_in_range_spec. lra.
Qed.

Lemma strike_window_at_the_money_witness :
  strike_in_range 100 (mkOptionContract "C100" 100 1 2) = true.
Proof.
  apply (strike_window_at_the_money 100 (mkOptionContract "C100" 100 1 2));
    [unfold Qle; simpl; lia | reflexivity].
Defined.

(** ** Ticker normalisation *)

(** X16: the normalised symbol contains no "."; a ticker without "." is its
    own normalised symbol; and normalising twice is normalising once (the
    script normalises the selected ticker again in the Options Analysis
    tab and in the batch run). *)
Theorem normalised_symbol_has_no_dot (ticker : string) :
  free_of "." (str_replace "." "-" ticker)
  /\ (free_of "." ticker -> str_replace "." "-" ticker = ticker)
  /\ str_replace "." "-" (str_replace "." "-" ticker) = str_replace "." "-" ticker.
Proof.
  assert (H1 : free_of "." (str_replace "." "-" ticker)).
  { induction ticker as [|ch rest IH]; simpl; [exact I|].
    split; [|exact IH].
    destruct (Ascii.eqb ch ".") eqn:E; [discriminate|].
    by apply Ascii.eqb_neq in E. }
  assert (H2 : forall t, free_of "." t -> str_replace "." "-" t = t).
  { induction t as [|ch rest IH]; simpl; [reflexivity|].
    intros [Hch Hrest]. apply Ascii.eqb_neq in Hch. rewrite Hch. by rewrite IH. }
  split; [exact H1|]. split; [apply H2|]. by apply H2.
Qed.

Lemma normalised_symbol_has_no_dot_witness :
  str_replace "." "-" "AAPL" = "AAPL"%string.
Proof.
  assert (H : free_of "." "AAPL") by (simpl; repeat split; discriminate).
  exact (proj1 (proj2 (normalised_symbol_has_no_dot "AAPL")) H).
Defined.

(** ** The ranking *)

(** X17: the ranking is stable: for every movement value, the rows with that
    movement come in the sorted list in the order they had in the list of
    results, which is the order of the universe. *)
Theorem ranking_is_stable (m : Q) (results : list Entry) :
  filter (fun row => Qeq_bool (e_movement row) m = true) (sorted_desc results)
  = filter (fun row => Qeq_bool (e_movement row) m = true) results.
Proof.
  induction results as [|x l IH]; simpl; [reflexivity|].
  rewrite insert_desc_filter.
  - rewrite !(filter_cons _ x), IH. reflexivity.
  - intros y _ Hy Hx. apply Qeq_bool_iff in Hy, Hx.
    apply Qltb_ge. rewrite Hy, Hx. apply Qle_refl.
Qed.

(** X18: the rows the first loop collects are rows of the universe, in the
    order of the universe and at most one per ticker of it: the tickers of
    the rows are a sublist of the universe. *)
Theorem batch_rows_follow_universe (env : Provider) (universe : list string) (s : State) :
  exists results,
    result_of (collect_results env universe [] s) = Ok results
    /\ sublist (map e_ticker results) universe
    /\ (length results <= length universe)%nat.
Proof.
  assert (H : forall universe results s,
             exists r rows,
               result_of (collect_results env universe results s) = Ok r
               /\ r = results ++ rows
               /\ sublist (map e_ticker rows) universe).
  { clear. induction universe as [|t rest IH]; intros results s.
    - exists results, []. rewrite app_nil_r. by repeat split.
    - cbn [collect_results]. rewrite result_bind.
      destruct (process_ticker_result env t results s) as [->|(c & p & ->)].
      + destruct (IH results (state_of (process_ticker env t results s)))
          as (r & rows & Hr & -> & Hsub).
        exists (results ++ rows), rows. repeat split; [exact Hr|].
        by apply sublist_cons.
      + destruct (IH (results ++ [mkEntry t c p (Qabs (p - c))])
                    (state_of (process_ticker env t results s)))
          as (r & rows & Hr & -> & Hsub).
        exists ((results ++ [mkEntry t c p (Qabs (p - c))]) ++ rows),
               (mkEntry t c p (Qabs (p - c)) :: rows).
        split; [exact Hr|]. split; [by rewrite <- app_assoc|].
        simpl. by apply sublist_skip. }
  destruct (H universe [] s) as (r & rows & Hr & -> & Hsub).
  exists rows. split; [exact Hr|]. split; [exact Hsub|].
  apply sublist_length in Hsub. by rewrite length_map in Hsub.
Qed.

(** ** The session *)

(** X19: a single-ticker analysis always makes its ticker the selected
    stock, but replaces the table kept in the session only when the loader
    returns one: after a failed load the session holds the new ticker
    together with the table of the previous one. *)
Theorem single_ticker_analysis_session (env : Provider) (inp : UiInput) (s : State) :
  in_analyze_clicked inp = true ->
  in_selected_stock inp <> "Analyze All"%string ->
  let s0 := set_session (Some (in_selected_stock inp)) (session_stock_data s) s in
  let r := fetch_stock_data env (in_selected_stock inp) (PyDate (in_start_date inp))
             (PyDate (in_end_date inp)) s0 in
  let s' := state_of (tab_stock_analysis env inp s) in
  session_selected_stock s' = Some (in_selected_stock inp)
  /\ session_stock_data s'
     = match result_of r with
       | Ok (Some l) => Some l
       | _ => session_stock_data s
       end.
Proof.
  intros Hclick Hsel. cbv zeta.
  unfold tab_stock_analysis. rewrite Hclick.
  apply String.eqb_neq in Hsel. rewrite Hsel.
  rewrite state_bind.
  change (result_of (ui ?m s)) with (Ok (A:=unit) tt).
  change (state_of (ui ?m s)) with s. cbv iota.
  rewrite state_bind.
  change (result_of (modify ?f s)) with (Ok (A:=unit) tt).
  change (state_of (modify ?f s)) with (f s). cbv iota beta.
  set (s0 := set_session _ _ s).
  rewrite state_bind.
  assert (Hf : same_session s0 (state_of (fetch_stock_data env (in_selected_stock inp)
                  (PyDate (in_start_date inp)) (PyDate (in_end_date inp)) s0))).
  { apply (preserves_fetch_stock_data same_session); intros; by split. }
  destruct (never_raises_fetch_stock_data env (in_selected_stock inp)
              (PyDate (in_start_date inp)) (PyDate (in_end_date inp)) s0) as [o Ho].
  rewrite Ho. set (s1 := state_of (fetch_stock_data _ _ _ _ s0)) in *.
  destruct Hf as [Hf1 Hf2].
  destruct o as [l|]; [|by split].
  match goal with |- context [state_of (?m s1)] => set (rest := m) end.
  assert (Hrest : same_session (set_session (session_selected_stock s1) (Some l) s1)
                    (state_of (rest s1))).
  { subst rest. rewrite state_bind.
    change (result_of (modify ?f s1)) with (Ok (A:=unit) tt).
    change (state_of (modify ?f s1)) with (f s1). cbv iota beta.
    apply (preserves_bind same_session (predict_price_movement env (Some l) 7)).
    - apply (preserves_predict_price_movement same_session).
      intros s2 l2 d2 d2' _. by split.
    - intros [[c|] [q|]]; try apply (preserves_emit same_session).
      do 3 (apply (preserves_bind same_session);
            [apply (preserves_emit same_session)|]; intros _).
      apply (preserves_analyze_single_stock same_session). }
  destruct Hrest as [H1 H2]. by rewrite H1, H2.
Qed.

Lemma single_ticker_analysis_session_witness :
  let s := mkState {[ 0%nat := Demo.bars [100; 97; 94; 91] ]} 1 ∅ (Some "MSFT"%string)
             (Some 0%nat) in
  let s' := state_of (tab_stock_analysis Demo.provider
                        (mkUiInput "TSLA" (2022, 1, 1)%nat (2024, 6, 3)%nat true false) s) in
  session_selected_stock s' = Some "TSLA"%string
  /\ session_stock_data s' = Some 0%nat.
Proof.
  assert (Hsel : "TSLA"%string <> "Analyze All"%string) by discriminate.
  exact (single_ticker_analysis_session Demo.provider
           (mkUiInput "TSLA" (2022, 1, 1)%nat (2024, 6, 3)%nat true false)
           (mkState {[ 0%nat := Demo.bars [100; 97; 94; 91] ]} 1 ∅ (Some "MSFT"%string)
              (Some 0%nat)) eq_refl Hsel).
Defined.

(** ** The global handler *)

(** X20: a run of the script never ends with an exception. When the Stock
    Analysis tab raises one, the run shows what that tab had shown, then the
    error panel with the message, and renders neither of the other two
    tabs. *)
Theorem script_error_panel (env : Provider) (inp : UiInput) (s : State) :
  result_of (main env inp s) = Ok tt
  /\ forall e,
       result_of (tab_stock_analysis env inp s) = Raise e ->
       trace_of (main env inp s)
       = trace_of (tab_stock_analysis env inp s)
         ++ [EvUi (StError "An unexpected error occurred. See details below:");
             EvUi (StText e)].
Proof.
  split.
  - unfold main. rewrite result_try_except.
    destruct (result_of (bind _ _ s)) as [[]|e]; reflexivity.
  - intros e He. unfold main.
    rewrite trace_try_except, result_bind, trace_bind, He. cbv iota.
    by rewrite app_nil_r.
Qed.

Lemma script_error_panel_witness :
  trace_of (main DemoNoInfo.provider
              (mkUiInput "AAPL" (2022, 1, 1)%nat (2024, 6, 3)%nat true true) Demo.state0)
  = trace_of (tab_stock_analysis DemoNoInfo.provider
                (mkUiInput "AAPL" (2022, 1, 1)%nat (2024, 6, 3)%nat true true) Demo.state0)
    ++ [EvUi (StError "An unexpected error occurred. See details below:");
        EvUi (StText "info unavailable")].
Proof.
  apply (script_error_panel DemoNoInfo.provider
           (mkUiInput "AAPL" (2022, 1, 1)%nat (2024, 6, 3)%nat true true) Demo.state0).
  reflexivity.
Defined.

(** ** The fitted line *)

Section LeastSquares.

Variables a b a0 b0 mx : Q.




End LeastSquares.





(** X22: on a series of at least 2 bars with a column "Close", and for a
    horizon of at least one day, the forecaster does one of two things,
    according to what the fit does on the closes. When the fit returns a
    model, the forecaster returns the last close and the value of the
    fitted line at bar index [len - 1 + days], and shows nothing; when the
    fit raises, it returns (None, None) and shows the warning with the
    message of the exception. Either way the only change to the state is the
    column "Days" written to the series. On finite closes, as many as there
    are bars, the fit returns the least-squares line up to its rounding
    errors, unless its arithmetic overflows. *)
Theorem forecaster_closed_form
    (env : Provider) (l : nat) (days : Z) (s : State) (d : DataFrame)
    (y : list PyFloat) :
  heap s !! l = Some d ->
  (2 <= df_len d)%nat ->
  df_columns d !! "Close" = Some y ->
  (1 <= days)%Z ->
  match LinearRegression_fit (fit_rounding env) (day_cells (df_len d)) y with
  | Ok model =>
      exists current,
        last y = Some (Finite current)
        /\ predict_price_movement env (Some l) days s
           = (Ok (Some current,
                  Some (predict_at model (inject_Z (Z.of_nat (df_len d) - 1 + days)))),
              store l (with_column "Days" (day_cells (df_len d)) d) s,
              [])
  | Raise e =>
      predict_price_movement env (Some l) days s
      = (Ok (None, None),
         store l (with_column "Days" (day_cells (df_len d)) d) s,
         [EvUi (StWarning (ErrorPrediction e))])
  end
  /\ forall closes,
       y = map Finite closes -> length closes = df_len d ->
       LinearRegression_fit (fit_rounding env) (day_cells (df_len d)) y
       = match fit_rounding env (day_index (df_len d)) closes with
         | Ok err => Ok (rounded (ols_fit (day_index (df_len d)) closes) err)
         | Raise e => Raise e
         end.
Proof.
  intros Hl Hn Hc Hdays. split.
  - rewrite (predict_price_movement_eval env l days s d Hl Hn).
    destruct (LinearRegression_fit _ _ y) as [model|e] eqn:Hfit.
    + destruct (forecast_outcome_fitted env d days y model Hn Hc Hfit Hdays)
        as (current & Hlast & ->).
      by exists current.
    + by rewrite (forecast_outcome_unfitted env d days y e Hc Hfit).
  - intros closes -> Hlen. apply LinearRegression_fit_finite; [lia | exact Hlen].
Qed.

Lemma forecaster_closed_form_witness :
  exists current,
    last (map Finite [100; 97; 95; 91]) = Some (Finite current)
    /\ predict_price_movement Demo.provider (Some 0%nat) 3
         (Demo.series_state [100; 97; 95; 91])
       = (Ok (Some current,
              Some (predict_at (ols_fit (day_index 4) [100; 97; 95; 91])
                      (inject_Z (Z.of_nat 4 - 1 + 3)))),
          store 0 (with_column "Days" (day_cells 4) (Demo.bars [100; 97; 95; 91]))
            (Demo.series_state [100; 97; 95; 91]),
          []).
Proof.
  assert (H1 : heap (Demo.series_state [100; 97; 95; 91]) !! 0%nat
               = Some (Demo.bars [100; 97; 95; 91])) by reflexivity.
  assert (H2 : (2 <= df_len (Demo.bars [100; 97; 95; 91]%Q))%nat) by (vm_compute; lia).
  assert (H3 : df_columns (Demo.bars [100; 97; 95; 91]) !! "Close"
               = Some (map Finite [100; 97; 95; 91])) by reflexivity.
  assert (H4 : (1 <= 3)%Z) by lia.
  destruct (proj1 (forecaster_closed_form Demo.provider 0%nat 3
                     (Demo.series_state [100; 97; 95; 91])
                     (Demo.bars [100; 97; 95; 91]) (map Finite [100; 97; 95; 91])
                     H1 H2 H3 H4)) as (current & Hlast & Hrun).
  exists current. split; [exact Hlast|].
  rewrite Hrun. vm_compute. reflexivity.
Defined.
